(** * Wikihow sentence datasets: flattening and index-arithmetic sampling

    Shallow embedding of [src/datasets/wikihow.py]: the document flattener
    [WikihowDataset._process_data] and the three sampling strategies
    [WikihowDiscourse.__getitem__], [WikihowTriplet.__getitem__] and
    [WikihowTPK.__getitem__].

    Python integers are [Z]; a Python [str] is the [string] of the UTF-8
    bytes of its code points; a Python list is a Coq [list] read through
    [py_getitem], which keeps Python's negative-index wrap-around and its
    [IndexError]; exceptions are values of [exn] in the [result] monad; the
    process-wide generator of the [random] module is an explicit state. *)

From Stdlib Require Import ZArith String Ascii Bool Lia Arith List.
From Stdlib Require Import DecimalString FinFun.
Import ListNotations.

Local Open Scope string_scope.
Local Open Scope Z_scope.
Local Open Scope list_scope.

(** ** Exceptions and the error monad *)

Inductive exn : Type :=
| IndexError
| KeyError
| AssertionError
| AttributeError
| ValueError
| ZeroDivisionError.

Inductive result (A : Type) : Type :=
| Ok (a : A)
| Raise (e : exn).

Arguments Ok {A} a.
Arguments Raise {A} e.

Definition bind {A B : Type} (m : result A) (f : A -> result B) : result B :=
  match m with
  | Ok a => f a
  | Raise e => Raise e
  end.

Notation "x <- m ;; k" := (bind m (fun x => k))
  (at level 61, m at next level, right associativity).

Definition py_assert (b : bool) : result unit :=
  if b then Ok tt else Raise AssertionError.

(** [x / d] is evaluated for its exception only: the quotient is a float
    that no result carries. *)
Definition py_truediv_defined (d : Z) : result unit :=
  if d =? 0 then Raise ZeroDivisionError else Ok tt.

(** ** Python strings *)

Module PyStr.

(** [s.startswith(p)] *)
Fixpoint startswith (p s : string) : bool :=
  match p, s with
  | EmptyString, _ => true
  | String a p', String b s' => Ascii.eqb a b && startswith p' s'
  | String _ _, EmptyString => false
  end.

Fixpoint rev_onto (s acc : string) : string :=
  match s with
  | EmptyString => acc
  | String c s' => rev_onto s' (String c acc)
  end.

Definition rev (s : string) : string := rev_onto s EmptyString.

(** [s.endswith(p)] *)
Definition endswith (s p : string) : bool := startswith (rev p) (rev s).

(** A byte [10xxxxxx]: inside a code point, never at its start. *)
Definition is_continuation (c : ascii) : bool :=
  match c with
  | Ascii _ _ _ _ _ _ b6 b7 => b7 && negb b6
  end.

Fixpoint all_continuation (s : string) : bool :=
  match s with
  | EmptyString => true
  | String c s' => is_continuation c && all_continuation s'
  end.

(** [s[:-1]]: everything but the last character, that is the last code
    point with all its bytes; the empty string stays empty. *)
Fixpoint drop_last (s : string) : string :=
  match s with
  | EmptyString => EmptyString
  | String c s' =>
      if all_continuation s' then EmptyString else String c (drop_last s')
  end.

(** [s.split(sep)] for a non-empty [sep]: a left-to-right scan that cuts
    at every occurrence that does not overlap the previous one.  [skip]
    counts the characters of a matched separator still to be passed over,
    [cur] holds the current fragment in reverse. *)
Fixpoint split_go (sep : string) (skip : nat) (cur : string) (s : string)
  : list string :=
  match s with
  | EmptyString => [rev cur]
  | String c s' =>
      match skip with
      | S n => split_go sep n cur s'
      | O =>
          if startswith sep s
          then rev cur :: split_go sep (Nat.pred (String.length sep)) EmptyString s'
          else split_go sep O (String c cur) s'
      end
  end.

Definition split (s sep : string) : list string :=
  split_go sep O EmptyString s.

(** [s.replace(old, new)] for a non-empty [old]: every occurrence met by
    a left-to-right scan is replaced, occurrences do not overlap. *)
Fixpoint replace_go (old new : string) (skip : nat) (s : string) : string :=
  match s with
  | EmptyString => EmptyString
  | String c s' =>
      match skip with
      | S n => replace_go old new n s'
      | O =>
          if startswith old s
          then (new ++ replace_go old new (Nat.pred (String.length old)) s')%string
          else String c (replace_go old new O s')
      end
  end.

Definition replace (s old new : string) : string := replace_go old new O s.

(** [str(n)] / the f-string rendering [{n}] of a non-negative integer. *)
Definition of_nat (n : nat) : string :=
  NilEmpty.string_of_uint (Nat.to_uint n).

End PyStr.

(** ** Python lists read by an integer index *)

Definition py_len {A : Type} (l : list A) : Z := Z.of_nat (List.length l).

(** [l[i]]: a negative index counts from the end, anything outside
    [-len, len) raises [IndexError]. *)
Definition py_getitem {A : Type} (l : list A) (i : Z) : result A :=
  let j := if i <? 0 then i + py_len l else i in
  if (0 <=? j) && (j <? py_len l)
  then match nth_error l (Z.to_nat j) with
       | Some a => Ok a
       | None => Raise IndexError
       end
  else Raise IndexError.

(** ** Data model *)

(** One entry of [doc['steps']]. *)
Record step : Type := mkStep {
  section : string;
  summary : string;
  text : string
}.

(** A raw document: [doc['title']] and [doc['steps']], a dict from step key
    to step info, kept in its iteration order. *)
Record doc : Type := mkDoc {
  title : string;
  steps : list (string * step)
}.

(** The dict built for every sentence; [total_doc_sentences] is the key
    added by the back-fill loop. *)
Record sentence_info : Type := mkInfo {
  sentence : string;
  sentence_id : Z;
  doc_id : Z;
  total_doc_sentences : Z
}.

(** [self.section_ids] and [self.cl_eos_str]. *)
Definition section_ids : list string := ["[ TITLE ]"; "[ METHOD ]"; "[ STEP ]"].
Definition section_id (i : nat) : string := nth i section_ids "".
Definition cl_eos_str : string := " . ".
Definition split_pattern : string := ".  ".

(** ** Tokenizer selection ([_set_tokenizer]) *)

Inductive backend : Type := GPT2 | BERT.

Definition set_tokenizer (tokenizer_name : string) : result backend :=
  if String.eqb tokenizer_name "GPT2" then Ok GPT2
  else if String.eqb tokenizer_name "BERT" then Ok BERT
  else Raise ValueError.

Definition max_length (b : backend) : Z :=
  match b with
  | GPT2 => 1024
  | BERT => 512
  end.

(** ** The flattener ([_process_data]) *)

(** [range(a, b)] *)
Definition py_range (a b : Z) : list Z :=
  map (fun i => a + Z.of_nat i) (seq 0 (Z.to_nat (b - a))).

(** [method2steps[v['section']].append(v)] on a [defaultdict(list)]: the
    dict keeps its keys in the order of their first insertion. *)
Fixpoint method2steps_append (m : list (string * list step)) (v : step)
  : list (string * list step) :=
  match m with
  | [] => [(section v, [v])]
  | (name, vs) :: m' =>
      if String.eqb name (section v)
      then (name, vs ++ [v]) :: m'
      else (name, vs) :: method2steps_append m' v
  end.

Definition method2steps (d : doc) : list (string * list step) :=
  fold_left (fun m kv => method2steps_append m (snd kv)) (steps d) [].

Definition title_sentence (d_title : string) : string :=
  (section_id 0 ++ " " ++ d_title ++ " . ")%string.

Definition method_sentence (method_name : string) : string :=
  (section_id 1 ++ " " ++ method_name ++ " . ")%string.

(** [f"{self.section_ids[2]} {step_num} " + step['summary'][:-1] + " . "] *)
Definition directions (step_num : nat) (st : step) : string :=
  ((section_id 2 ++ " " ++ PyStr.of_nat step_num ++ " ")
     ++ PyStr.drop_last (summary st) ++ " . ")%string.

(** [sentences[-1] = f(sentences[-1])]; [str.split] never returns an empty
    list, so the lookup of the last element cannot fail. *)
Fixpoint update_last (f : string -> string) (l : list string) : list string :=
  match l with
  | [] => []
  | [x] => [f x]
  | x :: l' => x :: update_last f l'
  end.

Definition last_endswith (l : list string) (p : string) : bool :=
  PyStr.endswith (last l "") p.

(** The body sentences of one step (source lines 61-63). *)
Definition step_sentences (st : step) : list string :=
  let sentences :=
    map (fun x => (x ++ " . ")%string) (PyStr.split (text st) split_pattern) in
  if last_endswith sentences ". . "
  then update_last (fun x => PyStr.replace x ". . " " . ") sentences
  else sentences.

(** The [enumerate(steps)] loop, with [all_sentences] as accumulator. *)
Fixpoint steps_loop (step_num : nat) (sts : list step)
  (all_sentences : list string) : list string :=
  match sts with
  | [] => all_sentences
  | st :: sts' =>
      steps_loop (S step_num) sts'
        (all_sentences ++ ([directions step_num st] ++ step_sentences st))
  end.

Definition all_sentences (d_title method_name : string) (sts : list step)
  : list string :=
  steps_loop 0 sts ([title_sentence d_title] ++ [method_sentence method_name]).

(** The length threshold of the filter at line 67: the literal [1024],
    whatever [self.max_length] is. *)
Definition length_threshold : Z := 1024.

(** The dict of lines 75-79, before the back-fill. *)
Definition partial_info : Type := (string * Z * Z)%type.

(** One turn of the loop at lines 70-81, on [(doc_info, sentence_counter)]. *)
Definition add_sentence (doc_counter : Z) (acc : list partial_info * Z)
  (s : string) : list partial_info * Z :=
  let '(doc_info, sentence_counter) := acc in
  if String.eqb s "" then acc
  else if String.eqb s " . " then acc
  else (doc_info ++ [(s, sentence_counter, doc_counter)], sentence_counter + 1).

(** Lines 84-85. *)
Definition backfill (sentence_counter : Z) (p : partial_info) : sentence_info :=
  let '(s, sid, did) := p in mkInfo s sid did sentence_counter.

Section Flattener.

(** [len(self.tokenizer(s)['input_ids'])] for the selected backend. *)
Variable count_tokens : backend -> string -> Z.

(** [self.all_dataset[doc_id]], the external corpus. *)
Variable all_dataset : Z -> result doc.

Definition under_threshold (b : backend) (sents : list string) : bool :=
  forallb (fun s => count_tokens b s <? length_threshold) sents.

(** The body of the loop over [method2steps.items()], on the state
    [(processed_data, doc_counter)]. *)
Definition process_method (b : backend) (d_title : string)
  (st : list sentence_info * Z) (g : string * list step)
  : list sentence_info * Z :=
  let '(processed_data, doc_counter) := st in
  let '(method_name, sts) := g in
  let sents := all_sentences d_title method_name sts in
  if negb (under_threshold b sents) then st
  else
    let '(doc_info, sentence_counter) :=
      fold_left (add_sentence doc_counter) sents ([], 0) in
    (processed_data ++ map (backfill sentence_counter) doc_info,
     doc_counter + 1).

Definition process_doc (b : backend) (st : list sentence_info * Z) (d : doc)
  : list sentence_info * Z :=
  fold_left (process_method b (title d)) (method2steps d) st.

(** The loop over [range(self.start_idx, self.end_idx)]. *)
Fixpoint process_range (b : backend) (ids : list Z)
  (st : list sentence_info * Z) : result (list sentence_info * Z) :=
  match ids with
  | [] => Ok st
  | i :: ids' =>
      d <- all_dataset i ;;
      process_range b ids' (process_doc b st d)
  end.

(** [_process_data]; the two [print]s read entries 0 and 10. *)
Definition process_data (b : backend) (start_idx end_idx : Z)
  : result (list sentence_info) :=
  st <- process_range b (py_range start_idx end_idx) ([], 0) ;;
  _ <- py_getitem (fst st) 0 ;;
  _ <- py_getitem (fst st) 10 ;;
  Ok (fst st).

End Flattener.

(** ** The dataset object ([WikihowDataset.__init__]) *)

(** The attributes of an instance that the sampling code reads.
    [one_hot_labels] is read by [WikihowDiscourse.__getitem__] but no
    constructor assigns it: it is [None] until the caller sets it. *)
Record dataset : Type := mkDataset {
  train : bool;
  k : Z;                          (* self.config.data_params.k *)
  seed : Z;
  tokenizer : backend;
  processed_data : list sentence_info;
  one_hot_labels : option bool
}.

Definition set_one_hot_labels (self : dataset) (flag : bool) : dataset :=
  mkDataset (train self) (k self) (seed self) (tokenizer self)
    (processed_data self) (Some flag).

Section Construction.

Variable count_tokens : backend -> string -> Z.
Variable all_dataset : Z -> result doc.

(** Lines 28-31. *)
Definition slice (is_train : bool) : Z * Z :=
  if is_train then (0, 1000) else (40000, 40100).

(** [__init__]: the seed is stored, the tokenizer selected, the corpus
    slice flattened.  Nothing here touches the [random] module. *)
Definition init (is_train : bool) (config_k : Z) (tokenizer_name : string)
  (the_seed : Z) : result dataset :=
  let '(start_idx, end_idx) := slice is_train in
  b <- set_tokenizer tokenizer_name ;;
  data <- process_data count_tokens all_dataset b start_idx end_idx ;;
  Ok (mkDataset is_train config_k the_seed b data None).

End Construction.

(** [__len__] *)
Definition len (self : dataset) : Z := py_len (processed_data self) - 1.

(** ** The [random] module *)

(** The process-wide generator is a state of type [G]; [randbelow n]
    draws from [0, n) and steps the state ([Random._randbelow]). *)
Record generator : Type := mkGenerator {
  G : Type;
  randbelow : Z -> G -> Z * G
}.

Definition sound (R : generator) : Prop :=
  forall n g, 0 < n -> 0 <= fst (randbelow R n g) < n.

Section Random.

Variable R : generator.

(** Computations that may draw and may raise. *)
Definition M (A : Type) : Type := G R -> result A * G R.

Definition ret {A : Type} (a : A) : M A := fun g => (Ok a, g).

Definition lift {A : Type} (r : result A) : M A := fun g => (r, g).

Definition bindM {A B : Type} (m : M A) (f : A -> M B) : M B :=
  fun g =>
    match m g with
    | (Ok a, g') => f a g'
    | (Raise e, g') => (Raise e, g')
    end.

(** [random.randint(a, b)] *)
Definition randint (a b : Z) : M Z :=
  fun g => let '(r, g') := randbelow R (b - a + 1) g in (Ok (a + r), g').

(** [random.choice(seq)] *)
Definition choice (l : list Z) : M Z :=
  fun g =>
    match l with
    | [] => (Raise IndexError, g)
    | _ => let '(i, g') := randbelow R (py_len l) g in (py_getitem l i, g')
    end.

End Random.

Arguments ret {R A} a.
Arguments lift {R A} r.
Arguments bindM {R A B} m f.

Notation "x <~ m ;; k" := (bindM m (fun x => k))
  (at level 61, m at next level, right associativity).

(** [nums.remove(x)]: the first occurrence goes, [ValueError] if none. *)
Fixpoint py_remove (x : Z) (l : list Z) : result (list Z) :=
  match l with
  | [] => Raise ValueError
  | y :: l' =>
      if y =? x then Ok l'
      else (r <- py_remove x l' ;; Ok (y :: r))
  end.

(** ** Pairwise order ([WikihowDiscourse.__getitem__]) *)

Inductive label_value : Type :=
| ScalarLabel (l : Z)
| OneHotLabel (v : list Z).     (* torch.zeros(2) with one entry set to 1.0 *)

(** [labels = torch.zeros(2); labels[label] = 1.0] *)
Definition one_hot (label : Z) : list Z :=
  [if label =? 0 then 1 else 0; if label =? 1 then 1 else 0].

Record discourse_item : Type := mkDiscourse {
  d_y_t : string;
  d_y_tp1 : string;
  d_label : label_value;
  d_idx : Z;
  d_t : Z;
  d_tp1 : Z
}.

Definition read_flag (self : dataset) : result bool :=
  match one_hot_labels self with
  | Some f => Ok f
  | None => Raise AttributeError
  end.

Definition discourse_getitem (R : generator) (self : dataset) (index : Z)
  : M R discourse_item :=
  label <~ randint R 0 1 ;;
  lift (
    utterance <- py_getitem (processed_data self) index ;;
    let tp1 := Z.min (total_doc_sentences utterance - 1)
                     (sentence_id utterance + k self) in
    let t := Z.max 0 (tp1 - k self) in
    y_t <- py_getitem (processed_data self) (index + (t - sentence_id utterance)) ;;
    y_tp1 <- py_getitem (processed_data self) (index + (tp1 - sentence_id utterance)) ;;
    _ <- py_assert (doc_id y_t =? doc_id y_tp1) ;;
    let y_t := sentence y_t in
    let y_tp1 := sentence y_tp1 in
    let '(y_t, y_tp1) := if label =? 0 then (y_tp1, y_t) else (y_t, y_tp1) in
    flag <- read_flag self ;;
    let label := if flag then OneHotLabel (one_hot label) else ScalarLabel label in
    Ok (mkDiscourse y_t y_tp1 label index
          (index + (t - sentence_id utterance))
          (index + (tp1 - sentence_id utterance)))).

(** ** Ordered triplet ([WikihowTriplet.__getitem__]) *)

Record triplet_item : Type := mkTriplet {
  t_y_0 : string;
  t_y_t : string;
  t_y_T : string;
  t_t_ : Z;
  t_t : Z;
  t_T : Z;
  t_total_t : Z
}.

(** Lines 228-231: both tests read the [sentence_num] of the first lookup. *)
Definition advance (sentence_num index : Z) : Z :=
  let index := if sentence_num =? 0 then index + 2 else index in
  if sentence_num =? 1 then index + 1 else index.

Definition triplet_getitem (R : generator) (self : dataset) (index : Z)
  : M R triplet_item :=
  utterance <~ lift (py_getitem (processed_data self) index) ;;
  let index := advance (sentence_id utterance) index in
  utterance <~ lift (py_getitem (processed_data self) index) ;;
  let T := sentence_id utterance in
  let nums := py_range 0 T in
  t1 <~ choice R nums ;;
  nums <~ lift (py_remove t1 nums) ;;
  t2 <~ choice R nums ;;
  let '(t1, t2) := if t2 <? t1 then (t2, t1) else (t1, t2) in
  lift (
    _ <- py_assert ((t1 <? t2) && (t2 <? T)) ;;
    y_0 <- py_getitem (processed_data self) (index - T + t1) ;;
    y_t <- py_getitem (processed_data self) (index - T + t2) ;;
    y_T <- py_getitem (processed_data self) index ;;
    Ok (mkTriplet (sentence y_0) (sentence y_t) (sentence y_T)
          t1 t2 T (total_doc_sentences utterance))).

(** ** Windowed context ([WikihowTPK.__getitem__]) *)

Record tpk_item : Type := mkTPK {
  y_t : string;
  y_tm1 : string;
  y_tm2 : string;
  y_tm3 : string;
  y_tpk : string
}.

(** Lines 294-295. *)
Definition step_back (data : list sentence_info) (index : Z) : result Z :=
  a <- py_getitem data index ;;
  b <- py_getitem data (index + 1) ;;
  Ok (if negb (doc_id a =? doc_id b) then index - 1 else index).

(** The conditional expression of lines 311, 313 and 315 for one lag; [or]
    evaluates its right operand only when [index - lag < 0] is false. *)
Definition lag_record (data : list sentence_info) (index lag : Z)
  : result sentence_info :=
  fallback <-
    (if index - lag <? 0 then Ok true
     else (a <- py_getitem data index ;;
           b <- py_getitem data (index - lag) ;;
           Ok (negb (doc_id a =? doc_id b)))) ;;
  if fallback : bool then py_getitem data index
  else py_getitem data (index - lag).

(** The two branches on [k]; the value is the index the lags start from,
    [y_t] and [y_tp1]. *)
Definition tpk_window (self : dataset) (index : Z)
  : result (Z * string * string) :=
  let data := processed_data self in
  if k self =? 1 then
    index <- step_back data index ;;
    y_t <- py_getitem data index ;;
    y_tp1 <- py_getitem data (index + 1) ;;
    num <- py_getitem data index ;;
    den <- py_getitem data index ;;
    _ <- py_truediv_defined (total_doc_sentences den) ;;
    Ok (index, sentence y_t, sentence y_tp1)
  else
    utterance <- py_getitem data index ;;
    let tp1 := Z.min (total_doc_sentences utterance - 1)
                     (sentence_id utterance + k self) in
    let t := Z.max 0 (tp1 - k self) in
    y_t <- py_getitem data (index + (t - sentence_id utterance)) ;;
    y_tp1 <- py_getitem data (index + (tp1 - sentence_id utterance)) ;;
    num <- py_getitem data (index + (t - sentence_id utterance)) ;;
    _ <- py_truediv_defined (total_doc_sentences utterance) ;;
    Ok (index, sentence y_t, sentence y_tp1).

Definition tpk_getitem (self : dataset) (index : Z) : result tpk_item :=
  let data := processed_data self in
  w <- tpk_window self index ;;
  let '(index, y_t, y_tp1) := w in
  y_tm1 <- lag_record data index 1 ;;
  y_tm2 <- lag_record data index 2 ;;
  y_tm3 <- lag_record data index 3 ;;
  Ok (mkTPK y_t (sentence y_tm1) (sentence y_tm2) (sentence y_tm3) y_tp1).

(** * Properties *)

(** ** The shape of the flattened sequence *)

(** A sentence survives the two [continue]s of lines 71-74. *)
Definition kept (s : string) : bool :=
  negb (String.eqb s "") && negb (String.eqb s " . ").

(** The records of one unit [d] with [n] sentences, numbered from [i]. *)
Fixpoint unit_records (d n i : Z) (sents : list string) : list sentence_info :=
  match sents with
  | [] => []
  | s :: sents' => mkInfo s i d n :: unit_records d n (i + 1) sents'
  end.

Definition unit_of (d : Z) (sents : list string) : list sentence_info :=
  unit_records d (py_len sents) 0 sents.

(** Units laid out one after the other, numbered from [d]. *)
Fixpoint build (d : Z) (us : list (list string)) : list sentence_info :=
  match us with
  | [] => []
  | u :: us' => unit_of d u ++ build (d + 1) us'
  end.

(** What [_process_data] produces: consecutive units, each of at least
    three sentences (title, method, first step). *)
Definition flattened (data : list sentence_info) : Prop :=
  exists us, data = build 0 us /\ Forall (fun u => (3 <= length u)%nat) us.

(** The number of records of [data] whose [doc_id] is [d]. *)
Definition count_doc (d : Z) (data : list sentence_info) : Z :=
  py_len (filter (fun r => doc_id r =? d) data).

(** The triples of lines 75-79 for the kept sentences of one unit. *)
Fixpoint partial_records (d i : Z) (sents : list string) : list partial_info :=
  match sents with
  | [] => []
  | s :: sents' => (s, i, d) :: partial_records d (i + 1) sents'
  end.

(** The steps of a group rendered in order, starting at [step_num]. *)
Fixpoint steps_flat (step_num : nat) (sts : list step) : list string :=
  match sts with
  | [] => []
  | st :: sts' =>
      directions step_num st :: step_sentences st ++ steps_flat (S step_num) sts'
  end.

(** The loop state: the units built so far and their number. *)
Definition state_ok (st : list sentence_info * Z) : Prop :=
  exists us, fst st = build 0 us /\ snd st = py_len us /\
             Forall (fun u => (3 <= length u)%nat) us.

(** ** Sentence synthesis as the specification words it *)

(** The last four characters go. *)
Definition drop_last4 (x : string) : string :=
  PyStr.drop_last (PyStr.drop_last (PyStr.drop_last (PyStr.drop_last x))).

(** A fragment that ends with the duplicated delimiter [". . "] has that
    ending collapsed to the single delimiter [" . "]. *)
Definition collapse_trailing (x : string) : string :=
  if PyStr.endswith x ". . " then (drop_last4 x ++ " . ")%string else x.

(** A fragment that ends with [". . "] has every occurrence of [". . "]
    replaced by [" . "]. *)
Definition collapse_all (x : string) : string :=
  if PyStr.endswith x ". . " then PyStr.replace x ". . " " . " else x.

(** The rendering of a group's steps, the last fragment of every body
    repaired by [repair]. *)
Fixpoint spec_steps (repair : string -> string) (step_index : nat)
  (sts : list step) : list string :=
  match sts with
  | [] => []
  | st :: sts' =>
      ("[ STEP ] " ++ PyStr.of_nat step_index ++ " "
         ++ PyStr.drop_last (summary st) ++ " . ")%string
      :: update_last repair
           (map (fun x => (x ++ " . ")%string) (PyStr.split (text st) ".  "))
      ++ spec_steps repair (S step_index) sts'
  end.

Definition spec_all_sentences (repair : string -> string)
  (d_title method_name : string) (sts : list step) : list string :=
  ("[ TITLE ] " ++ d_title ++ " . ")%string
  :: ("[ METHOD ] " ++ method_name ++ " . ")%string
  :: spec_steps repair 0 sts.

(** [". . "] occurs in [y ++ ". . "] at its end only. *)
Definition only_trailing (y : string) : Prop :=
  forall p c s, y = (p ++ String c s)%string ->
                PyStr.startswith ". . " (String c s ++ ". . ") = false.

(** ** A run: construction, then a sequence of samples *)

Inductive strategy : Type := Discourse | Triplet | TPK.

Inductive item : Type :=
| DiscourseItem (x : discourse_item)
| TripletItem (x : triplet_item)
| TPKItem (x : tpk_item).

Definition getitem (R : generator) (s : strategy) (self : dataset) (index : Z)
  : M R item :=
  match s with
  | Discourse => x <~ discourse_getitem R self index ;; ret (DiscourseItem x)
  | Triplet => x <~ triplet_getitem R self index ;; ret (TripletItem x)
  | TPK => lift (x <- tpk_getitem self index ;; Ok (TPKItem x))
  end.

(** The samples of a list of indices, in order; the first exception ends
    the run. *)
Fixpoint sample_seq (R : generator) (get : Z -> M R item) (indices : list Z)
  : M R (list item) :=
  match indices with
  | [] => ret []
  | i :: indices' =>
      x <~ get i ;;
      xs <~ sample_seq R get indices' ;;
      ret (x :: xs)
  end.

(** One run of the process: the dataset is constructed (no draw, no
    seeding: [init] does not see the generator), the caller may set
    [one_hot_labels], then the indices are sampled. *)
Definition run (R : generator) (count_tokens : backend -> string -> Z)
  (all_dataset : Z -> result doc) (s : strategy) (is_train : bool)
  (config_k : Z) (tokenizer_name : string) (the_seed : Z)
  (flag : option bool) (indices : list Z) : M R (list item) :=
  self <~ lift (init count_tokens all_dataset is_train config_k
                  tokenizer_name the_seed) ;;
  let self := match flag with
              | Some f => set_one_hot_labels self f
              | None => self
              end in
  sample_seq R (getitem R s self) indices.

(** The backward-lag sentence of a sample, by lag. *)
Definition y_tm (lag : Z) (x : tpk_item) : string :=
  if lag =? 1 then y_tm1 x else if lag =? 2 then y_tm2 x else y_tm3 x.

(** Whether the record [lag] places before [index] may be used. *)
Definition shares_unit (data : list sentence_info) (index lag : Z)
  (cur : sentence_info) : Prop :=
  0 <= index - lag /\
  exists prev, py_getitem data (index - lag) = Ok prev /\
               doc_id prev = doc_id cur.

(** ** Vocabulary for the further properties *)

(** [sep.join(parts)] *)
Fixpoint join (sep : string) (parts : list string) : string :=
  match parts with
  | [] => EmptyString
  | [x] => x
  | x :: parts' => (x ++ sep ++ join sep parts')%string
  end.

(** The distinct elements of a list, each at its first occurrence. *)
Fixpoint first_occurrences (l : list string) : list string :=
  match l with
  | [] => []
  | x :: l' =>
      x :: filter (fun y => negb (String.eqb y x)) (first_occurrences l')
  end.

(** The steps of a method, in their original order. *)
Definition steps_of (name : string) (sts : list step) : list step :=
  filter (fun v => String.eqb name (section v)) sts.

(** A unit as the flattener renders it: the kept candidate sentences of a
    group with at least one step. *)
Definition rendered_unit (u : list string) : Prop :=
  exists d_title method_name st sts,
    u = filter kept (all_sentences d_title method_name (st :: sts)).

(** The loop state with its units known to be rendered groups. *)
Definition state_rendered (st : list sentence_info * Z) : Prop :=
  exists us, fst st = build 0 us /\ snd st = py_len us /\
             Forall rendered_unit us.

(** A unit rendered from a group of a document that satisfies [P]. *)
Definition group_unit (P : doc -> Prop) (u : list string) : Prop :=
  exists d m st sts,
    P d /\ In (m, st :: sts) (method2steps d) /\
    u = filter kept (all_sentences (title d) m (st :: sts)).

(** The loop state with every unit traced to its document and group. *)
Definition state_grouped (P : doc -> Prop) (st : list sentence_info * Z)
  : Prop :=
  exists us, fst st = build 0 us /\ snd st = py_len us /\
             Forall (group_unit P) us.

(** A string that ends with the delimiter [self.cl_eos_str]. *)
Definition delimited (s : string) : Prop :=
  exists p, s = (p ++ cl_eos_str)%string.

(** What one loop state adds to an earlier one: records at the end, all
    numbered from the earlier counter on. *)
Definition extends (st st' : list sentence_info * Z) : Prop :=
  exists new,
    fst st' = fst st ++ new /\ snd st <= snd st' /\
    Forall (fun r => snd st <= doc_id r < snd st') new.

(** ** A small corpus and a small generator, for concrete runs *)

Definition tea_steps : list (string * step) :=
  [("0", mkStep "Boil Water" "Fill the kettle." "Use cold water.  Fill to the line.");
   ("1", mkStep "Steep" "Add the tea." "");
   ("2", mkStep "Boil Water" "Switch on." "Wait.")].

Definition tea : doc := mkDoc "Make Tea" tea_steps.

(** Every document of the corpus is [tea]. *)
Definition tea_corpus (i : Z) : result doc :=
  if (0 <=? i) && (i <? 50000) then Ok tea else Raise IndexError.

(** One token per character. *)
Definition char_tokens (b : backend) (s : string) : Z :=
  Z.of_nat (String.length s).

(** A hundred tokens per character: every sentence is over the threshold. *)
Definition verbose_tokens (b : backend) (s : string) : Z :=
  100 * Z.of_nat (String.length s).

(** A corpus whose documents have no steps, and one that ends early. *)
Definition bare_corpus (i : Z) : result doc := Ok (mkDoc "Empty" []).

Definition short_corpus (i : Z) : result doc :=
  if i <? 40050 then Ok tea else Raise KeyError.

(** A generator that reads its draws off a tape. *)
Definition tape_randbelow (n : Z) (g : list Z) : Z * list Z :=
  match g with
  | [] => (0, [])
  | x :: g' => (x mod n, g')
  end.

Definition tape : generator := mkGenerator (list Z) tape_randbelow.

(** The evaluation slice of [tea_corpus], flattened. *)
Definition tea_data : list sentence_info :=
  Eval vm_compute in
    match process_data char_tokens tea_corpus GPT2 40000 40100 with
    | Ok data => data
    | Raise _ => []
    end.

Definition tea_dataset (config_k : Z) : dataset :=
  mkDataset false config_k 1 GPT2 tea_data None.

(** * Lemmas *)

Lemma unit_records_length d n i sents :
  length (unit_records d n i sents) = length sents.
Proof.
  revert i; induction sents as [|s sents IH]; intros i; simpl; auto.
Qed.

Lemma unit_records_nth d n sents : forall i j,
  nth_error (unit_records d n i sents) j =
  option_map (fun s => mkInfo s (i + Z.of_nat j) d n) (nth_error sents j).
Proof.
  induction sents as [|s sents IH]; intros i [|j]; simpl; auto.
  - now rewrite Z.add_0_r.
  - rewrite IH. destruct (nth_error sents j); simpl; auto.
    do 2 f_equal. lia.
Qed.

Lemma unit_of_length d u : length (unit_of d u) = length u.
Proof. apply unit_records_length. Qed.

Lemma unit_of_nth d u j r :
  nth_error (unit_of d u) j = Some r ->
  exists s, nth_error u j = Some s /\
            r = mkInfo s (Z.of_nat j) d (py_len u).
Proof.
  unfold unit_of. rewrite unit_records_nth.
  destruct (nth_error u j) as [s|]; simpl; [|discriminate].
  intros [= <-]. now exists s.
Qed.

Lemma unit_of_nth_lt d u j :
  (j < length u)%nat ->
  exists s, nth_error (unit_of d u) j = Some (mkInfo s (Z.of_nat j) d (py_len u)).
Proof.
  intros Hj. unfold unit_of. rewrite unit_records_nth.
  destruct (nth_error u j) as [s|] eqn:E.
  - exists s. reflexivity.
  - apply nth_error_None in E. lia.
Qed.

Lemma build_app d us vs :
  build d (us ++ vs) = build d us ++ build (d + py_len us) vs.
Proof.
  revert d; induction us as [|u us IH]; intros d; simpl.
  - unfold py_len; simpl. now rewrite Z.add_0_r.
  - rewrite IH, <- app_assoc. do 3 f_equal.
    unfold py_len; simpl length. lia.
Qed.

Lemma build_doc_ge us : forall d i r,
  nth_error (build d us) i = Some r -> d <= doc_id r.
Proof.
  induction us as [|u us IH]; intros d i r H; simpl in H.
  - destruct i; discriminate.
  - destruct (Nat.lt_ge_cases i (length (unit_of d u))) as [Hlt|Hge].
    + rewrite nth_error_app1 in H by assumption.
      apply unit_of_nth in H as (s & _ & ->). simpl. lia.
    + rewrite nth_error_app2 in H by assumption.
      apply IH in H. lia.
Qed.

(** The unit around a record: where it starts, how long it is, and that it
    holds every record of that [doc_id]. *)
Lemma build_span us : forall d i r,
  Forall (fun u => (3 <= length u)%nat) us ->
  nth_error (build d us) i = Some r ->
  exists start n : nat,
    (3 <= n)%nat /\
    (start <= i < start + n)%nat /\
    (start + n <= length (build d us))%nat /\
    sentence_id r = Z.of_nat (i - start) /\
    total_doc_sentences r = Z.of_nat n /\
    (forall j, (j < n)%nat ->
       exists s, nth_error (build d us) (start + j) =
                 Some (mkInfo s (Z.of_nat j) (doc_id r) (Z.of_nat n))) /\
    (forall i' r', nth_error (build d us) i' = Some r' ->
       doc_id r' = doc_id r -> (start <= i' < start + n)%nat).
Proof.
  induction us as [|u us IH]; intros d i r Hall H; simpl in H.
  - destruct i; discriminate.
  - inversion Hall as [|? ? Hu Hus]; subst.
    pose proof (unit_of_length d u) as Hlen.
    destruct (Nat.lt_ge_cases i (length (unit_of d u))) as [Hlt|Hge].
    + rewrite nth_error_app1 in H by assumption.
      apply unit_of_nth in H as (s & Hs & ->).
      exists 0%nat, (length u). simpl build. simpl doc_id.
      simpl sentence_id. simpl total_doc_sentences.
      rewrite length_app, Hlen.
      split; [lia|]. split; [lia|]. split; [lia|].
      split; [f_equal; lia|]. split; [reflexivity|]. split.
      * intros j Hj. simpl.
        rewrite nth_error_app1 by lia.
        apply unit_of_nth_lt; assumption.
      * intros i' r' Hr' Hd.
        destruct (Nat.lt_ge_cases i' (length (unit_of d u))); [lia|].
        rewrite nth_error_app2 in Hr' by assumption.
        apply build_doc_ge in Hr'. lia.
    + rewrite nth_error_app2 in H by assumption.
      destruct (IH _ _ _ Hus H)
        as (start & n & Hn & Hi & Hend & Hsid & Htot & Hin & Hall').
      exists (length u + start)%nat, n. simpl build.
      rewrite length_app, Hlen. rewrite Hlen in *.
      split; [lia|]. split; [lia|]. split; [lia|].
      split; [rewrite Hsid; f_equal; lia|]. split; [assumption|]. split.
      * intros j Hj. rewrite nth_error_app2 by (rewrite Hlen; lia).
        rewrite Hlen. destruct (Hin j Hj) as [s Hs]. exists s.
        rewrite <- Hs. f_equal. lia.
      * intros i' r' Hr' Hd.
        destruct (Nat.lt_ge_cases i' (length u)) as [Hlt'|Hge'].
        -- rewrite nth_error_app1 in Hr' by (rewrite Hlen; assumption).
           apply unit_of_nth in Hr' as (s & _ & ->). simpl in Hd.
           apply build_doc_ge in H. lia.
        -- rewrite nth_error_app2 in Hr' by (rewrite Hlen; assumption).
           rewrite Hlen in Hr'. specialize (Hall' _ _ Hr' Hd). lia.
Qed.

Lemma count_doc_app d l1 l2 :
  count_doc d (l1 ++ l2) = count_doc d l1 + count_doc d l2.
Proof.
  unfold count_doc, py_len. rewrite filter_app, length_app. lia.
Qed.

Lemma count_doc_unit_records d n sents : forall i,
  count_doc d (unit_records d n i sents) = py_len sents.
Proof.
  unfold count_doc, py_len.
  induction sents as [|s sents IH]; intros i; [reflexivity|].
  cbn [unit_records filter doc_id]. rewrite Z.eqb_refl.
  cbn [length]. rewrite !Nat2Z.inj_succ, IH. reflexivity.
Qed.

Lemma count_doc_unit_other d d' n sents : forall i,
  d <> d' -> count_doc d' (unit_records d n i sents) = 0.
Proof.
  unfold count_doc, py_len.
  induction sents as [|s sents IH]; intros i Hd; simpl; auto.
  destruct (Z.eqb_spec d d'); [contradiction|]. now apply IH.
Qed.

Lemma count_doc_build_lt us : forall d d',
  d' < d -> count_doc d' (build d us) = 0.
Proof.
  induction us as [|u us IH]; intros d d' Hlt; simpl; auto.
  rewrite count_doc_app. unfold unit_of.
  rewrite count_doc_unit_other by lia. rewrite IH by lia. reflexivity.
Qed.

(** The records of a [doc_id] are as many as their [total_doc_sentences]. *)
Lemma build_count us : forall d i r,
  nth_error (build d us) i = Some r ->
  count_doc (doc_id r) (build d us) = total_doc_sentences r.
Proof.
  induction us as [|u us IH]; intros d i r H; simpl in H.
  - destruct i; discriminate.
  - simpl build. rewrite count_doc_app.
    destruct (Nat.lt_ge_cases i (length (unit_of d u))) as [Hlt|Hge].
    + rewrite nth_error_app1 in H by assumption.
      apply unit_of_nth in H as (s & _ & ->). simpl.
      unfold unit_of. rewrite count_doc_unit_records.
      rewrite count_doc_build_lt by lia. lia.
    + rewrite nth_error_app2 in H by assumption.
      pose proof (build_doc_ge _ _ _ _ H) as Hge'.
      unfold unit_of. rewrite count_doc_unit_other by lia.
      rewrite (IH _ _ _ H). reflexivity.
Qed.

(** *** Reading a list through [py_getitem] *)

Lemma py_getitem_nth {A} (l : list A) (i : Z) (a : A) :
  0 <= i -> py_getitem l i = Ok a <-> nth_error l (Z.to_nat i) = Some a.
Proof.
  intros Hi. unfold py_getitem.
  destruct (Z.ltb_spec i 0); [lia|].
  destruct (Z.leb_spec 0 i); [|lia]. simpl.
  destruct (Z.ltb_spec i (py_len l)).
  - destruct (nth_error l (Z.to_nat i)); split; congruence.
  - split; [discriminate|]. intros Hn.
    assert (Hlt : (Z.to_nat i < length l)%nat)
      by (apply nth_error_Some; congruence).
    unfold py_len in *. lia.
Qed.

Lemma py_getitem_in_range {A} (l : list A) (i : Z) :
  0 <= i < py_len l -> exists a, py_getitem l i = Ok a.
Proof.
  intros Hi. destruct (nth_error l (Z.to_nat i)) as [a|] eqn:E.
  - exists a. apply py_getitem_nth; [lia|assumption].
  - apply nth_error_None in E. unfold py_len in Hi. lia.
Qed.

Lemma py_getitem_Ok_range {A} (l : list A) (i : Z) (a : A) :
  0 <= i -> py_getitem l i = Ok a -> i < py_len l.
Proof.
  intros Hi H. apply py_getitem_nth in H; [|assumption].
  assert (Hlt : (Z.to_nat i < length l)%nat)
    by (apply nth_error_Some; congruence).
  unfold py_len. lia.
Qed.

(** The unit around the record at a non-negative index of a flattened
    sequence, in the terms the sampling code uses. *)
Lemma flattened_span data i r :
  flattened data -> 0 <= i -> py_getitem data i = Ok r ->
  let n := total_doc_sentences r in
  let start := i - sentence_id r in
  3 <= n /\ 0 <= sentence_id r < n /\
  0 <= start /\ start + n <= py_len data /\
  count_doc (doc_id r) data = n /\
  (forall j, 0 <= j < n ->
     exists r', py_getitem data (start + j) = Ok r' /\
                doc_id r' = doc_id r /\ sentence_id r' = j /\
                total_doc_sentences r' = n) /\
  (forall i' r', 0 <= i' -> py_getitem data i' = Ok r' ->
     doc_id r' = doc_id r -> start <= i' < start + n).
Proof.
  intros (us & -> & Hall) Hi H.
  apply py_getitem_nth in H; [|assumption].
  pose proof (build_count _ _ _ _ H) as Hcount.
  destruct (build_span _ _ _ _ Hall H)
    as (start & n & Hn & Hin & Hend & Hsid & Htot & Hunit & Honly).
  cbv zeta. rewrite Hsid, Htot, Hcount, Htot.
  assert (Hstart : i - Z.of_nat (Z.to_nat i - start) = Z.of_nat start) by lia.
  rewrite Hstart.
  split; [lia|]. split; [lia|]. split; [lia|].
  split; [unfold py_len; lia|]. split; [reflexivity|]. split.
  - intros j Hj. destruct (Hunit (Z.to_nat j)) as [s Hs]; [lia|].
    exists (mkInfo s (Z.of_nat (Z.to_nat j)) (doc_id r) (Z.of_nat n)).
    split; [|simpl; repeat split; lia].
    apply py_getitem_nth; [lia|].
    rewrite <- Hs. f_equal. lia.
  - intros i' r' Hi' Hr' Hd.
    apply py_getitem_nth in Hr'; [|assumption].
    specialize (Honly _ _ Hr' Hd). lia.
Qed.

(** *** The flattener produces a flattened sequence *)

Lemma add_sentence_fold d sents : forall doc_info c,
  fold_left (add_sentence d) sents (doc_info, c) =
  (doc_info ++ partial_records d c (filter kept sents),
   c + py_len (filter kept sents)).
Proof.
  induction sents as [|s sents IH]; intros doc_info c.
  - simpl. rewrite app_nil_r. unfold py_len; simpl. now rewrite Z.add_0_r.
  - cbn [fold_left filter].
    assert (Hk : kept s = negb (String.eqb s "") && negb (String.eqb s " . "))
      by reflexivity.
    unfold add_sentence at 2.
    destruct (String.eqb s ""); cbn [negb andb] in Hk;
      [rewrite Hk; apply IH|].
    destruct (String.eqb s " . "); cbn [negb andb] in Hk;
      rewrite Hk; [apply IH|].
    rewrite IH, <- app_assoc. cbn [partial_records app]. f_equal.
    unfold py_len; cbn [length]. lia.
Qed.

Lemma backfill_partial n d sents : forall i,
  map (backfill n) (partial_records d i sents) = unit_records d n i sents.
Proof.
  induction sents as [|s sents IH]; intros i; simpl; auto.
  now rewrite IH.
Qed.

Lemma steps_loop_flat sts : forall n acc,
  steps_loop n sts acc = acc ++ steps_flat n sts.
Proof.
  induction sts as [|st sts IH]; intros n acc; simpl.
  - now rewrite app_nil_r.
  - rewrite IH, <- !app_assoc. reflexivity.
Qed.

Lemma all_sentences_flat d_title method_name sts :
  all_sentences d_title method_name sts =
  title_sentence d_title :: method_sentence method_name :: steps_flat 0 sts.
Proof. unfold all_sentences. now rewrite steps_loop_flat. Qed.

Lemma kept_title t : kept (title_sentence t) = true.
Proof. reflexivity. Qed.

Lemma kept_method m : kept (method_sentence m) = true.
Proof. reflexivity. Qed.

Lemma kept_directions n st : kept (directions n st) = true.
Proof. reflexivity. Qed.

Lemma all_sentences_kept_3 t m st sts :
  (3 <= length (filter kept (all_sentences t m (st :: sts))))%nat.
Proof.
  rewrite all_sentences_flat. cbn [steps_flat filter].
  rewrite kept_title, kept_method, kept_directions. cbn [length]. lia.
Qed.

Lemma method2steps_append_nonempty m v :
  Forall (fun g : string * list step => snd g <> []) m ->
  Forall (fun g : string * list step => snd g <> []) (method2steps_append m v).
Proof.
  induction m as [|[name vs] m IH]; intros H; simpl.
  - constructor; [discriminate|constructor].
  - inversion H as [|? ? Hg Hm]; subst.
    destruct (String.eqb name (section v)); constructor; auto.
    simpl. destruct vs; discriminate.
Qed.

Lemma method2steps_nonempty d :
  Forall (fun g : string * list step => snd g <> []) (method2steps d).
Proof.
  unfold method2steps.
  assert (Hgen : forall (l : list (string * step)) m,
    Forall (fun g : string * list step => snd g <> []) m ->
    Forall (fun g : string * list step => snd g <> [])
      (fold_left (fun m kv => method2steps_append m (snd kv)) l m)).
  { induction l as [|kv l IH]; intros m Hm; simpl; auto.
    apply IH, method2steps_append_nonempty, Hm. }
  apply Hgen. constructor.
Qed.

Section FlattenerFacts.

Variable count_tokens : backend -> string -> Z.
Variable all_dataset : Z -> result doc.

(** The loop body in closed form: all or nothing. *)
Lemma process_method_eq b t data c name sts :
  process_method count_tokens b t (data, c) (name, sts) =
  if under_threshold count_tokens b (all_sentences t name sts)
  then (data ++ unit_of c (filter kept (all_sentences t name sts)), c + 1)
  else (data, c).
Proof.
  unfold process_method.
  destruct (under_threshold count_tokens b (all_sentences t name sts));
    [|reflexivity].
  cbn [negb]. rewrite add_sentence_fold. cbn [app].
  rewrite backfill_partial, Z.add_0_l. reflexivity.
Qed.

Lemma state_ok_init : state_ok ([], 0).
Proof. exists []. repeat split. constructor. Qed.

Lemma process_method_ok b t st g :
  snd g <> [] -> state_ok st -> state_ok (process_method count_tokens b t st g).
Proof.
  destruct st as [data c], g as [name sts]. simpl snd.
  intros Hne (us & Hdata & Hc & Hall). simpl in Hdata, Hc.
  rewrite process_method_eq.
  destruct (under_threshold count_tokens b (all_sentences t name sts)).
  - exists (us ++ [filter kept (all_sentences t name sts)]). simpl.
    rewrite build_app. cbn [build]. rewrite app_nil_r, Z.add_0_l.
    subst data c. split; [reflexivity|]. split.
    + unfold py_len. rewrite length_app. simpl. lia.
    + apply Forall_app. split; [assumption|].
      constructor; [|constructor].
      destruct sts as [|st sts]; [contradiction|].
      apply all_sentences_kept_3.
  - exists us. auto.
Qed.

Lemma process_doc_ok b st d :
  state_ok st -> state_ok (process_doc count_tokens b st d).
Proof.
  unfold process_doc. generalize (method2steps_nonempty d).
  generalize (method2steps d) as gs. intros gs. revert st.
  induction gs as [|g gs IH]; intros st Hgs Hst; simpl; auto.
  inversion Hgs; subst. apply IH; auto using process_method_ok.
Qed.

Lemma process_range_ok b ids : forall st st',
  state_ok st ->
  process_range count_tokens all_dataset b ids st = Ok st' -> state_ok st'.
Proof.
  induction ids as [|i ids IH]; intros st st' Hst H; simpl in H.
  - now inversion H; subst.
  - destruct (all_dataset i) as [d|e]; simpl in H; [|discriminate].
    eapply IH; [|exact H]. now apply process_doc_ok.
Qed.

Lemma process_data_flattened b s e data :
  process_data count_tokens all_dataset b s e = Ok data -> flattened data.
Proof.
  unfold process_data.
  destruct (process_range count_tokens all_dataset b (py_range s e) ([], 0))
    as [st|] eqn:E; simpl; [|discriminate].
  destruct (py_getitem (fst st) 0); simpl; [|discriminate].
  destruct (py_getitem (fst st) 10); simpl; [|discriminate].
  intros [= <-].
  destruct (process_range_ok _ _ _ _ state_ok_init E) as (us & H & _ & Hall).
  exists us. auto.
Qed.

Lemma init_flattened is_train config_k name sd self :
  init count_tokens all_dataset is_train config_k name sd = Ok self ->
  flattened (processed_data self).
Proof.
  unfold init. destruct (slice is_train) as [a z].
  destruct (set_tokenizer name) as [b|]; simpl; [|discriminate].
  destruct (process_data count_tokens all_dataset b a z) as [data|] eqn:E;
    simpl; [|discriminate].
  intros [= <-]. simpl. eapply process_data_flattened, E.
Qed.

Lemma init_k is_train config_k name sd self :
  init count_tokens all_dataset is_train config_k name sd = Ok self ->
  k self = config_k.
Proof.
  unfold init. destruct (slice is_train) as [a z].
  destruct (set_tokenizer name) as [b|]; simpl; [|discriminate].
  destruct (process_data count_tokens all_dataset b a z) as [data|];
    simpl; [|discriminate].
  now intros [= <-].
Qed.

End FlattenerFacts.

(** * The flattener's invariants *)

Lemma tea_init config_k :
  init char_tokens tea_corpus false config_k "GPT2" 1 = Ok (tea_dataset config_k).
Proof. vm_compute. reflexivity. Qed.

(** C1. In the record sequence of every constructed dataset, the records
    sharing a [doc_id] are contiguous, their [sentence_id]s are exactly
    [0 .. n-1] in ascending order and each has [total_doc_sentences = n],
    where [n] counts the records of that [doc_id]: around the record [r] at
    index [i] the [n] records from [i - sentence_id r] on carry [doc_id r],
    the ids [0], [1], ..., [n-1] and the total [n], and no record outside
    that stretch has this [doc_id]. *)
Theorem flattened_units_contiguous
  (count_tokens : backend -> string -> Z) (all_dataset : Z -> result doc)
  (is_train : bool) (config_k : Z) (name : string) (sd : Z) (self : dataset)
  (i : Z) (r : sentence_info) :
  init count_tokens all_dataset is_train config_k name sd = Ok self ->
  0 <= i ->
  py_getitem (processed_data self) i = Ok r ->
  let data := processed_data self in
  let n := count_doc (doc_id r) data in
  let start := i - sentence_id r in
  total_doc_sentences r = n /\
  0 <= sentence_id r < n /\
  0 <= start /\ start + n <= py_len data /\
  (forall j, 0 <= j < n ->
     exists r', py_getitem data (start + j) = Ok r' /\
                doc_id r' = doc_id r /\ sentence_id r' = j /\
                total_doc_sentences r' = n) /\
  (forall i' r', 0 <= i' -> py_getitem data i' = Ok r' ->
     doc_id r' = doc_id r -> start <= i' < start + n).
Proof.
  intros Hinit Hi Hr. cbv zeta.
  pose proof (init_flattened _ _ _ _ _ _ _ Hinit) as Hflat.
  destruct (flattened_span _ _ _ Hflat Hi Hr)
    as (_ & Hsid & Hstart & Hend & Hcount & Hunit & Honly).
  rewrite Hcount. repeat (split; [solve [auto | lia]|]). assumption.
Qed.

Lemma flattened_units_contiguous_witness :
  let r := mkInfo "[ METHOD ] Steep . " 1 1 3 in
  let data := tea_data in
  total_doc_sentences r = count_doc 1 data /\
  0 <= sentence_id r < count_doc 1 data /\
  0 <= 8 - 1 /\ 8 - 1 + count_doc 1 data <= py_len data /\
  (forall j, 0 <= j < count_doc 1 data ->
     exists r', py_getitem data (8 - 1 + j) = Ok r' /\
                doc_id r' = 1 /\ sentence_id r' = j /\
                total_doc_sentences r' = count_doc 1 data) /\
  (forall i' r', 0 <= i' -> py_getitem data i' = Ok r' ->
     doc_id r' = 1 -> 8 - 1 <= i' < 8 - 1 + count_doc 1 data).
Proof.
  exact (flattened_units_contiguous char_tokens tea_corpus false 1 "GPT2" 1
           (tea_dataset 1) 8 (mkInfo "[ METHOD ] Steep . " 1 1 3)
           (tea_init 1) ltac:(lia) eq_refl).
Defined.

(** C2. Every (document, method) group is taken whole or not at all, on
    the literal threshold 1024 whatever the backend: when some rendered
    sentence has 1024 tokens or more the group leaves the record sequence
    and the unit counter as they were; when every rendered sentence is
    under 1024 tokens the group appends the records of its kept sentences
    under the current counter, steps the counter by one, and every appended
    record's sentence is under 1024 tokens. *)
Theorem threshold_all_or_nothing
  (count_tokens : backend -> string -> Z) (b : backend) (d_title : string)
  (data : list sentence_info) (doc_counter : Z)
  (method_name : string) (sts : list step) :
  let sents := all_sentences d_title method_name sts in
  let st' := process_method count_tokens b d_title (data, doc_counter)
               (method_name, sts) in
  ((exists s, In s sents /\ 1024 <= count_tokens b s) ->
   st' = (data, doc_counter)) /\
  ((forall s, In s sents -> count_tokens b s < 1024) ->
   st' = (data ++ unit_of doc_counter (filter kept sents), doc_counter + 1) /\
   forall r, In r (unit_of doc_counter (filter kept sents)) ->
             count_tokens b (sentence r) < 1024).
Proof.
  cbv zeta. rewrite process_method_eq. unfold under_threshold, length_threshold.
  split.
  - intros (s & Hin & Hbig).
    destruct (forallb _ _) eqn:E; [|reflexivity].
    rewrite forallb_forall in E. specialize (E s Hin).
    apply Z.ltb_lt in E. lia.
  - intros Hsmall.
    destruct (forallb _ _) eqn:E.
    + split; [reflexivity|].
      intros r Hr. apply In_nth_error in Hr as [j Hj].
      apply unit_of_nth in Hj as (s & Hs & ->). simpl.
      apply nth_error_In in Hs. apply filter_In in Hs as [Hs _]. auto.
    + exfalso. apply Bool.not_true_iff_false in E. apply E.
      apply forallb_forall. intros s Hs. apply Z.ltb_lt. auto.
Qed.

Lemma threshold_all_or_nothing_witness :
  process_method verbose_tokens BERT "Make Tea" (tea_data, 100)
    ("Steep", [mkStep "Steep" "Add the tea." ""]) = (tea_data, 100) /\
  (process_method char_tokens BERT "Make Tea" ([], 0)
     ("Steep", [mkStep "Steep" "Add the tea." ""]) =
   ([] ++ unit_of 0 (filter kept (all_sentences "Make Tea" "Steep"
                                    [mkStep "Steep" "Add the tea." ""])), 0 + 1) /\
   forall r, In r (unit_of 0 (filter kept (all_sentences "Make Tea" "Steep"
                                    [mkStep "Steep" "Add the tea." ""]))) ->
             char_tokens BERT (sentence r) < 1024).
Proof.
  split.
  - apply (threshold_all_or_nothing verbose_tokens BERT "Make Tea" tea_data 100
             "Steep" [mkStep "Steep" "Add the tea." ""]).
    exists "[ METHOD ] Steep . ". split; [vm_compute; auto|vm_compute; discriminate].
  - apply (threshold_all_or_nothing char_tokens BERT "Make Tea" [] 0
             "Steep" [mkStep "Steep" "Add the tea." ""]).
    intros s Hs. vm_compute in Hs.
    repeat (destruct Hs as [<-|Hs]; [vm_compute; reflexivity|]).
    contradiction.
Defined.

(** * Sentence synthesis *)

Lemma update_last_guarded (c : string -> bool) (f : string -> string) l :
  update_last (fun x => if c x then f x else x) l =
  if c (last l "") then update_last f l else l.
Proof.
  induction l as [|x l IH].
  - simpl. now destruct (c "").
  - destruct l as [|y l].
    + simpl. now destruct (c x).
    + change (update_last ?g (x :: y :: l)) with (x :: update_last g (y :: l)).
      change (last (x :: y :: l) "") with (last (y :: l) "").
      rewrite IH. now destruct (c (last (y :: l) "")).
Qed.

Lemma step_sentences_collapse_all st :
  step_sentences st =
  update_last collapse_all
    (map (fun x => (x ++ " . ")%string) (PyStr.split (text st) ".  ")).
Proof.
  unfold step_sentences, collapse_all, last_endswith, split_pattern.
  cbv zeta.
  now rewrite (update_last_guarded (fun x => PyStr.endswith x ". . ")
                 (fun x => PyStr.replace x ". . " " . ")).
Qed.

Lemma string_app_assoc (a b c : string) :
  ((a ++ b) ++ c = a ++ b ++ c)%string.
Proof.
  induction a as [|x a IH]; simpl; congruence.
Qed.

Lemma directions_spec n st :
  directions n st =
  ("[ STEP ] " ++ PyStr.of_nat n ++ " "
     ++ PyStr.drop_last (summary st) ++ " . ")%string.
Proof.
  unfold directions. cbn [section_id section_ids nth].
  cbn [String.append]. rewrite !string_app_assoc. reflexivity.
Qed.

Lemma steps_flat_spec sts : forall n,
  steps_flat n sts = spec_steps collapse_all n sts.
Proof.
  induction sts as [|st sts IH]; intros n; [reflexivity|].
  cbn [steps_flat spec_steps].
  now rewrite IH, directions_spec, step_sentences_collapse_all.
Qed.

Lemma rev_onto_append a : forall b acc,
  PyStr.rev_onto (a ++ b)%string acc = PyStr.rev_onto b (PyStr.rev_onto a acc).
Proof.
  induction a as [|c a IH]; intros b acc; simpl; auto.
Qed.

Lemma endswith_duplicated y : PyStr.endswith (y ++ ". . ")%string ". . " = true.
Proof.
  unfold PyStr.endswith, PyStr.rev. rewrite rev_onto_append. reflexivity.
Qed.

Lemma all_continuation_snoc y c :
  PyStr.is_continuation c = false ->
  PyStr.all_continuation (y ++ String c EmptyString) = false.
Proof.
  intros Hc. induction y as [|a y IH]; simpl.
  - now rewrite Hc.
  - rewrite IH. apply andb_false_r.
Qed.

Lemma drop_last_snoc y c :
  PyStr.is_continuation c = false ->
  PyStr.drop_last (y ++ String c EmptyString) = y.
Proof.
  intros Hc. induction y as [|a y IH]; [reflexivity|].
  cbn [String.append PyStr.drop_last].
  rewrite (all_continuation_snoc y c Hc), IH. reflexivity.
Qed.

Lemma drop_last4_duplicated y : drop_last4 (y ++ ". . ")%string = y.
Proof.
  unfold drop_last4.
  change (y ++ ". . ")%string
    with (y ++ ("." ++ (" " ++ ("." ++ " "))))%string.
  rewrite <- !string_app_assoc.
  now rewrite !drop_last_snoc by reflexivity.
Qed.

Lemma replace_only_trailing y :
  only_trailing y ->
  PyStr.replace (y ++ ". . ")%string ". . " " . " = (y ++ " . ")%string.
Proof.
  unfold PyStr.replace. induction y as [|c y IH]; intros H; [reflexivity|].
  cbn [String.append PyStr.replace_go].
  pose proof (H EmptyString c y eq_refl) as H0.
  cbn [String.append] in H0. rewrite H0.
  f_equal. apply IH. intros p c' s ->.
  apply (H (String c p) c' s). reflexivity.
Qed.

Lemma only_trailing_wait : only_trailing "Wait".
Proof.
  intros p c s H.
  destruct p as [|a1 p]; [injection H as <- <-; reflexivity|].
  injection H as <- H.
  destruct p as [|a2 p]; [injection H as <- <-; reflexivity|].
  injection H as <- H.
  destruct p as [|a3 p]; [injection H as <- <-; reflexivity|].
  injection H as <- H.
  destruct p as [|a4 p]; [injection H as <- <-; reflexivity|].
  injection H as <- H.
  destruct p; discriminate H.
Qed.

(** C3. The code at two step bodies where it departs from the claim.  The
    claim has the ending [". . "] of a step's last fragment collapsed to
    the single delimiter [" . "] and nothing else touched.  The code
    guards on that ending but then replaces every [". . "] of the
    fragment: a spaced ellipsis inside the body is rewritten, and for a
    body that ends [". ."] the repaired fragment still ends with the
    duplicated delimiter. *)
Lemma synthesis_replaces_every_occurrence :
  step_sentences (mkStep "Steep" "Add the tea." "Wait . . . then stir.") =
    ["Wait  . . then stir . "] /\
  collapse_trailing "Wait . . . then stir. . " = "Wait . . . then stir . " /\
  all_sentences "Make Tea" "Steep"
    [mkStep "Steep" "Add the tea." "Wait . . . then stir."] <>
  spec_all_sentences collapse_trailing "Make Tea" "Steep"
    [mkStep "Steep" "Add the tea." "Wait . . . then stir."] /\
  step_sentences (mkStep "Steep" "Add the tea." "Stir. .") = ["Stir . . "] /\
  PyStr.endswith "Stir . . " ". . " = true.
Proof.
  split; [reflexivity|]. split; [reflexivity|].
  split; [vm_compute; discriminate|]. split; reflexivity.
Qed.

(** Apart from the repair of the last fragment the synthesis is as
    specified: the candidate sentences of a group are, in this order, the
    title sentence, the method sentence and, for each step in order, the
    directions sentence followed by the body split on [".  "] with every
    fragment suffixed [" . "]; when the last suffixed fragment ends with
    [". . "], every occurrence of [". . "] in it is replaced by [" . "].
    Where the ending is the only occurrence, that is the collapse of the
    duplicated delimiter to a single one. *)
Lemma sentence_synthesis (d_title method_name : string) (sts : list step) :
  all_sentences d_title method_name sts =
  spec_all_sentences collapse_all d_title method_name sts /\
  forall y, only_trailing y ->
    collapse_all (y ++ ". . ") = (y ++ " . ")%string /\
    collapse_all (y ++ ". . ") = collapse_trailing (y ++ ". . ").
Proof.
  split.
  - rewrite all_sentences_flat, steps_flat_spec. reflexivity.
  - intros y Hy. unfold collapse_all, collapse_trailing.
    rewrite endswith_duplicated, drop_last4_duplicated.
    rewrite replace_only_trailing by assumption. split; reflexivity.
Qed.

Lemma sentence_synthesis_tea :
  all_sentences "Make Tea" "Boil Water" (map snd tea_steps) =
  spec_all_sentences collapse_all "Make Tea" "Boil Water" (map snd tea_steps) /\
  (only_trailing "Wait" /\
   collapse_all "Wait. . " = "Wait . " /\
   collapse_all "Wait. . " = collapse_trailing "Wait. . ").
Proof.
  destruct (sentence_synthesis "Make Tea" "Boil Water" (map snd tea_steps))
    as [Hall Hlast].
  split; [exact Hall|].
  split; [exact only_trailing_wait|].
  exact (Hlast "Wait" only_trailing_wait).
Qed.

(** * Pairwise order *)

(** The window of lines 168-172 stays inside the unit of [index]. *)
Lemma window_in_unit data config_k index u :
  flattened data -> 0 <= config_k -> 0 <= index ->
  py_getitem data index = Ok u ->
  let tp1 := Z.min (total_doc_sentences u - 1) (sentence_id u + config_k) in
  let t := Z.max 0 (tp1 - config_k) in
  0 <= t <= tp1 /\ tp1 < total_doc_sentences u /\
  exists a b,
    py_getitem data (index + (t - sentence_id u)) = Ok a /\
    py_getitem data (index + (tp1 - sentence_id u)) = Ok b /\
    doc_id a = doc_id u /\ doc_id b = doc_id u /\
    sentence_id a = t /\ sentence_id b = tp1.
Proof.
  intros Hflat Hk Hi Hu. cbv zeta.
  destruct (flattened_span _ _ _ Hflat Hi Hu)
    as (Hn & Hsid & Hstart & Hend & _ & Hunit & _).
  set (tp1 := Z.min (total_doc_sentences u - 1) (sentence_id u + config_k)).
  set (t := Z.max 0 (tp1 - config_k)).
  assert (Ht : 0 <= t <= tp1 /\ tp1 < total_doc_sentences u)
    by (unfold t, tp1; lia).
  split; [tauto|]. split; [tauto|].
  destruct (Hunit t) as (a & Ha & Hda & Hsa & _); [lia|].
  destruct (Hunit tp1) as (b & Hb & Hdb & Hsb & _); [lia|].
  exists a, b.
  replace (index + (t - sentence_id u)) with (index - sentence_id u + t) by lia.
  replace (index + (tp1 - sentence_id u)) with (index - sentence_id u + tp1) by lia.
  auto 10.
Qed.

(** [__getitem__] once its three lookups are known to succeed within one
    unit. *)
Lemma discourse_getitem_eval R self index g u a b :
  let tp1 := Z.min (total_doc_sentences u - 1) (sentence_id u + k self) in
  let t := Z.max 0 (tp1 - k self) in
  py_getitem (processed_data self) index = Ok u ->
  py_getitem (processed_data self) (index + (t - sentence_id u)) = Ok a ->
  py_getitem (processed_data self) (index + (tp1 - sentence_id u)) = Ok b ->
  doc_id a = doc_id b ->
  discourse_getitem R self index g =
  (let label := 0 + fst (randbelow R (1 - 0 + 1) g) in
   flag <- read_flag self ;;
   Ok (mkDiscourse
         (if label =? 0 then sentence b else sentence a)
         (if label =? 0 then sentence a else sentence b)
         (if flag then OneHotLabel (one_hot label) else ScalarLabel label)
         index
         (index + (t - sentence_id u))
         (index + (tp1 - sentence_id u))),
   snd (randbelow R (1 - 0 + 1) g)).
Proof.
  cbv zeta. intros Hu Ha Hb Hd.
  unfold discourse_getitem, bindM, randint, lift.
  destruct (randbelow R (1 - 0 + 1) g) as [r g'].
  cbn [fst snd]. rewrite Hu. cbn [bind]. rewrite Ha. cbn [bind].
  rewrite Hb. cbn [bind]. rewrite Hd, Z.eqb_refl. cbn [py_assert bind].
  destruct (0 + r =? 0); reflexivity.
Qed.

Lemma init_no_flag count_tokens all_dataset is_train config_k name sd self :
  init count_tokens all_dataset is_train config_k name sd = Ok self ->
  one_hot_labels self = None.
Proof.
  unfold init. destruct (slice is_train) as [a z].
  destruct (set_tokenizer name) as [b|]; simpl; [|discriminate].
  destruct (process_data count_tokens all_dataset b a z) as [data|];
    simpl; [|discriminate].
  now intros [= <-].
Qed.

(** C4. For every index into the record sequence of a constructed dataset
    and every window size [k >= 1], the pairwise strategy's positions
    [tp1 = min(total_doc_sentences - 1, sentence_id + k)] and
    [t = max(0, tp1 - k)], resolved by offset from [index], name two
    records of the unit of [index] with [t <= tp1]; both share the
    [doc_id], so the assertion of line 174 does not fire and no lookup
    fails: once the label flag is set the call returns the two resolved
    global indices, in ascending order. *)
Theorem discourse_same_unit
  (R : generator) (count_tokens : backend -> string -> Z)
  (all_dataset : Z -> result doc) (is_train : bool) (config_k : Z)
  (name : string) (sd : Z) (self : dataset) (index : Z) (g : G R) :
  init count_tokens all_dataset is_train config_k name sd = Ok self ->
  1 <= config_k ->
  0 <= index < py_len (processed_data self) ->
  exists utterance y_t y_tp1,
    let data := processed_data self in
    let tp1 := Z.min (total_doc_sentences utterance - 1)
                     (sentence_id utterance + config_k) in
    let t := Z.max 0 (tp1 - config_k) in
    py_getitem data index = Ok utterance /\
    py_getitem data (index + (t - sentence_id utterance)) = Ok y_t /\
    py_getitem data (index + (tp1 - sentence_id utterance)) = Ok y_tp1 /\
    t <= tp1 /\
    sentence_id y_t = t /\ sentence_id y_tp1 = tp1 /\
    doc_id y_t = doc_id y_tp1 /\ doc_id y_t = doc_id utterance /\
    fst (discourse_getitem R self index g) <> Raise AssertionError /\
    fst (discourse_getitem R self index g) <> Raise IndexError /\
    forall flag, exists x,
      fst (discourse_getitem R (set_one_hot_labels self flag) index g) = Ok x /\
      d_t x = index + (t - sentence_id utterance) /\
      d_tp1 x = index + (tp1 - sentence_id utterance) /\
      d_t x <= d_tp1 x.
Proof.
  intros Hinit Hk Hindex.
  pose proof (init_flattened _ _ _ _ _ _ _ Hinit) as Hflat.
  pose proof (init_k _ _ _ _ _ _ _ Hinit) as Hkself.
  pose proof (init_no_flag _ _ _ _ _ _ _ Hinit) as Hflag.
  destruct (py_getitem_in_range _ _ Hindex) as [u Hu].
  destruct (window_in_unit (processed_data self) config_k index u Hflat
              ltac:(lia) ltac:(lia) Hu)
    as (Ht & Htp1 & a & b & Ha & Hb & Hda & Hdb & Hsa & Hsb).
  exists u, a, b. cbv zeta.
  assert (Hd : doc_id a = doc_id b) by congruence.
  repeat (split; [solve [assumption | lia | congruence]|]).
  rewrite <- Hkself in Ha, Hb.
  split; [|split].
  - rewrite (discourse_getitem_eval R self index g u a b Hu Ha Hb Hd).
    cbn [fst]. unfold read_flag. rewrite Hflag. discriminate.
  - rewrite (discourse_getitem_eval R self index g u a b Hu Ha Hb Hd).
    cbn [fst]. unfold read_flag. rewrite Hflag. discriminate.
  - intros flag.
    rewrite (discourse_getitem_eval R (set_one_hot_labels self flag)
               index g u a b Hu Ha Hb Hd).
    cbn [fst read_flag set_one_hot_labels one_hot_labels bind k].
    eexists. split; [reflexivity|]. cbn [d_t d_tp1].
    rewrite Hkself. repeat split; lia.
Qed.

Lemma tea_index_valid (config_k i : Z) :
  0 <= i < 1000 -> 0 <= i < py_len (processed_data (tea_dataset config_k)).
Proof. intros H. exact H. Qed.

Lemma discourse_same_unit_witness :
  exists utterance y_t y_tp1,
    py_getitem tea_data 6 = Ok utterance /\
    py_getitem tea_data 4 = Ok y_t /\
    py_getitem tea_data 6 = Ok y_tp1 /\
    doc_id y_t = doc_id y_tp1 /\
    fst (discourse_getitem tape (tea_dataset 2) 6 [1]) <> Raise AssertionError.
Proof.
  destruct (discourse_same_unit tape char_tokens tea_corpus false 2 "GPT2" 1
              (tea_dataset 2) 6 [1] (tea_init 2) ltac:(lia)
              (tea_index_valid 2 6 ltac:(lia)))
    as (u & a & b & Hu & Ha & Hb & _ & _ & _ & Hd & _ & Hassert & _).
  exists u, a, b.
  assert (E : u = mkInfo "Wait . " 6 0 7) by (vm_compute in Hu; congruence).
  subst u. vm_compute in Ha, Hb. auto.
Defined.

Lemma sound_binary R g :
  sound R ->
  let label := 0 + fst (randbelow R (1 - 0 + 1) g) in label = 0 \/ label = 1.
Proof.
  intros HR. cbv zeta. specialize (HR (1 - 0 + 1) g ltac:(lia)). lia.
Qed.

(** Once the caller has set [one_hot_labels] on a constructed dataset, a
    pairwise sample at any index into the records draws a binary label
    and returns: the texts of the two resolved records, (earlier, later)
    when the label is 1 ("in order") and (later, earlier) when it is 0;
    the label itself, or its one-hot vector when the flag is on; the
    queried index; and the two resolved global indices. *)
Lemma discourse_item_shape
  (R : generator) (count_tokens : backend -> string -> Z)
  (all_dataset : Z -> result doc) (is_train : bool) (config_k : Z)
  (name : string) (sd : Z) (self : dataset) (flag : bool)
  (index : Z) (g : G R) :
  sound R ->
  init count_tokens all_dataset is_train config_k name sd = Ok self ->
  1 <= config_k ->
  0 <= index < py_len (processed_data self) ->
  exists utterance earlier later label g',
    let data := processed_data self in
    let tp1 := Z.min (total_doc_sentences utterance - 1)
                     (sentence_id utterance + config_k) in
    let t := Z.max 0 (tp1 - config_k) in
    let t_index := index + (t - sentence_id utterance) in
    let tp1_index := index + (tp1 - sentence_id utterance) in
    py_getitem data index = Ok utterance /\
    py_getitem data t_index = Ok earlier /\
    py_getitem data tp1_index = Ok later /\
    t_index <= tp1_index /\
    randint R 0 1 g = (Ok label, g') /\
    (label = 0 \/ label = 1) /\
    discourse_getitem R (set_one_hot_labels self flag) index g =
    (Ok (mkDiscourse
           (if label =? 1 then sentence earlier else sentence later)
           (if label =? 1 then sentence later else sentence earlier)
           (if flag
            then OneHotLabel (if label =? 1 then [0; 1] else [1; 0])
            else ScalarLabel label)
           index t_index tp1_index),
     g').
Proof.
  intros HR Hinit Hk Hindex.
  pose proof (init_flattened _ _ _ _ _ _ _ Hinit) as Hflat.
  pose proof (init_k _ _ _ _ _ _ _ Hinit) as Hkself.
  destruct (py_getitem_in_range _ _ Hindex) as [u Hu].
  destruct (window_in_unit (processed_data self) config_k index u Hflat
              ltac:(lia) ltac:(lia) Hu)
    as (Ht & Htp1 & a & b & Ha & Hb & Hda & Hdb & Hsa & Hsb).
  assert (Hd : doc_id a = doc_id b) by congruence.
  exists u, a, b, (0 + fst (randbelow R (1 - 0 + 1) g)),
    (snd (randbelow R (1 - 0 + 1) g)).
  cbv zeta.
  pose proof (sound_binary R g HR) as Hlabel. cbv zeta in Hlabel.
  split; [assumption|]. split; [assumption|]. split; [assumption|].
  split; [lia|]. split.
  { unfold randint. now destruct (randbelow R (1 - 0 + 1) g). }
  split; [assumption|].
  rewrite <- Hkself in Ha, Hb.
  rewrite (discourse_getitem_eval R (set_one_hot_labels self flag)
             index g u a b Hu Ha Hb Hd).
  cbn [read_flag set_one_hot_labels one_hot_labels bind k]. rewrite Hkself.
  destruct Hlabel as [-> | ->]; destruct flag; reflexivity.
Qed.

Lemma tape_sound : sound tape.
Proof.
  intros n g Hn. destruct g as [|x g]; simpl.
  - lia.
  - apply Z.mod_pos_bound. assumption.
Qed.

Lemma discourse_item_shape_tea :
  discourse_getitem tape (set_one_hot_labels (tea_dataset 2) true) 6 [1] =
  (Ok (mkDiscourse "Fill to the line . " "Wait . " (OneHotLabel [0; 1]) 6 4 6),
   []).
Proof.
  destruct (discourse_item_shape tape char_tokens tea_corpus false 2 "GPT2" 1
              (tea_dataset 2) true 6 [1] tape_sound (tea_init 2) ltac:(lia)
              (tea_index_valid 2 6 ltac:(lia)))
    as (u & a & b & label & g' & Hu & Ha & Hb & _ & Hdraw & _ & Hitem).
  assert (Eu : u = mkInfo "Wait . " 6 0 7) by (vm_compute in Hu; congruence).
  subst u. vm_compute in Ha, Hb, Hdraw.
  injection Ha as <-. injection Hb as <-. injection Hdraw as <- <-.
  exact Hitem.
Qed.

(** C5. The code at a pairwise sample of a dataset as its constructor
    leaves it.  [__getitem__] reads [self.one_hot_labels] at line 186, and
    no constructor of the file assigns that attribute: the call draws the
    label, resolves both records, passes the assertion and then raises
    [AttributeError] instead of returning the sample.  The same call on
    an instance whose flag a caller has set returns the sample the claim
    describes. *)
Lemma discourse_item_as_constructed :
  init char_tokens tea_corpus false 2 "GPT2" 1 = Ok (tea_dataset 2) /\
  one_hot_labels (tea_dataset 2) = None /\
  discourse_getitem tape (tea_dataset 2) 6 [1] = (Raise AttributeError, []) /\
  discourse_getitem tape (set_one_hot_labels (tea_dataset 2) false) 6 [1] =
  (Ok (mkDiscourse "Fill to the line . " "Wait . " (ScalarLabel 1) 6 4 6), []).
Proof.
  split; [apply tea_init|]. split; [reflexivity|].
  split; vm_compute; reflexivity.
Qed.

(** * Ordered triplet *)

Lemma py_range_In a b x : In x (py_range a b) <-> a <= x < b.
Proof.
  unfold py_range. rewrite in_map_iff. split.
  - intros (i & <- & Hi). apply in_seq in Hi. lia.
  - intros H. exists (Z.to_nat (x - a)). split; [lia|].
    apply in_seq. lia.
Qed.

Lemma py_range_NoDup a b : NoDup (py_range a b).
Proof.
  unfold py_range. apply Injective_map_NoDup; [|apply seq_NoDup].
  intros i j H. lia.
Qed.

Lemma py_range_nonempty a b : a < b -> py_range a b <> [].
Proof.
  intros H E. assert (Hin : In a (py_range a b)) by (apply py_range_In; lia).
  rewrite E in Hin. contradiction.
Qed.

Lemma choice_In R l g :
  sound R -> l <> [] ->
  exists x, choice R l g = (Ok x, snd (randbelow R (py_len l) g)) /\ In x l.
Proof.
  intros HR Hl. unfold choice.
  destruct l as [|y l]; [contradiction|].
  assert (Hlen : 0 < py_len (y :: l)) by (unfold py_len; simpl length; lia).
  specialize (HR (py_len (y :: l)) g Hlen).
  destruct (randbelow R (py_len (y :: l)) g) as [i g']. simpl in HR.
  destruct (py_getitem_in_range (y :: l) i HR) as [x Hx].
  exists x. rewrite Hx. split; [reflexivity|].
  apply py_getitem_nth in Hx; [|lia]. eapply nth_error_In, Hx.
Qed.

Lemma py_remove_In x l :
  In x l ->
  exists l', py_remove x l = Ok l' /\ l' <> l /\
             (NoDup l -> forall y, In y l' <-> In y l /\ y <> x).
Proof.
  induction l as [|z l IH]; intros Hin; [contradiction|].
  simpl. destruct (Z.eqb_spec z x) as [->|Hne].
  - exists l. split; [reflexivity|]. split.
    + intros E. apply (f_equal (@length Z)) in E. simpl in E. lia.
    + intros Hnd y. inversion Hnd; subst. split.
      * intros Hy. split; [now right|]. intros ->. contradiction.
      * intros [[->|Hy] Hne]; [contradiction|assumption].
  - destruct Hin as [->|Hin]; [contradiction|].
    destruct (IH Hin) as (l' & -> & Hl' & Hspec).
    exists (z :: l'). simpl. split; [reflexivity|]. split; [congruence|].
    intros Hnd y. inversion Hnd; subst. specialize (Hspec H2 y).
    simpl. split.
    + intros [->|Hy]; [split; [now left|congruence]|].
      apply Hspec in Hy. tauto.
    + intros [[->|Hy] Hyx]; [now left|]. right. apply Hspec. tauto.
Qed.

(** The two draws of lines 240-243 are distinct points of [0, T). *)
Lemma two_draws R T g :
  sound R -> 2 <= T ->
  exists a nums b g1 g2,
    choice R (py_range 0 T) g = (Ok a, g1) /\
    py_remove a (py_range 0 T) = Ok nums /\
    choice R nums g1 = (Ok b, g2) /\
    0 <= a < T /\ 0 <= b < T /\ a <> b.
Proof.
  intros HR HT.
  destruct (choice_In R (py_range 0 T) g HR (py_range_nonempty 0 T ltac:(lia)))
    as (a & Ea & Ha).
  destruct (py_remove_In a _ Ha) as (nums & Enums & _ & Hnums).
  specialize (Hnums (py_range_NoDup 0 T)).
  assert (Hne : nums <> []).
  { intros ->. destruct (Z.eq_dec a 0) as [->|Ha0].
    - apply (proj2 (Hnums 1)). split; [apply py_range_In; lia|lia].
    - apply (proj2 (Hnums 0)). split; [apply py_range_In; lia|lia]. }
  destruct (choice_In R nums (snd (randbelow R (py_len (py_range 0 T)) g))
              HR Hne) as (b & Eb & Hb).
  apply Hnums in Hb as [Hb Hba].
  apply py_range_In in Ha, Hb.
  exists a, nums, b. do 2 eexists.
  split; [exact Ea|]. split; [exact Enums|]. split; [exact Eb|]. lia.
Qed.

(** After the advance of lines 228-231 the index sits on a record of the
    same unit whose [sentence_id] is at least 2. *)
Lemma advance_in_unit data index u :
  flattened data -> 0 <= index -> py_getitem data index = Ok u ->
  let index' := advance (sentence_id u) index in
  exists rT,
    py_getitem data index' = Ok rT /\
    doc_id rT = doc_id u /\
    total_doc_sentences rT = total_doc_sentences u /\
    2 <= sentence_id rT /\ 0 <= index' /\
    index' - sentence_id rT = index - sentence_id u /\
    (sentence_id u = 0 -> index' = index + 2) /\
    (sentence_id u = 1 -> index' = index + 1) /\
    (2 <= sentence_id u -> index' = index).
Proof.
  intros Hflat Hi Hu. cbv zeta.
  destruct (flattened_span _ _ _ Hflat Hi Hu)
    as (Hn & Hsid & Hstart & Hend & _ & Hunit & _).
  set (T := Z.max 2 (sentence_id u)).
  assert (Hadv : advance (sentence_id u) index = index - sentence_id u + T).
  { unfold advance, T.
    destruct (Z.eqb_spec (sentence_id u) 0);
      destruct (Z.eqb_spec (sentence_id u) 1); lia. }
  destruct (Hunit T) as (rT & HrT & Hd & Hs & Ht); [unfold T; lia|].
  exists rT. rewrite Hadv.
  split; [assumption|]. split; [assumption|]. split; [assumption|].
  unfold T in *. repeat split; lia.
Qed.

(** C6. For every index into the record sequence of a constructed dataset
    the triplet strategy returns a sample.  The advance (by 2 from a
    [sentence_id] of 0, by 1 from a [sentence_id] of 1, none otherwise)
    leaves the index on a record of the same unit with [T >= 2], so two
    earlier positions of the unit exist; the sample has [0 <= t1 < t2 < T]
    and its three texts are those of the records at unit positions [t1],
    [t2] and [T], all three of one [doc_id]. *)
Theorem triplet_ordered
  (R : generator) (count_tokens : backend -> string -> Z)
  (all_dataset : Z -> result doc) (is_train : bool) (config_k : Z)
  (name : string) (sd : Z) (self : dataset) (index : Z) (g : G R) :
  sound R ->
  init count_tokens all_dataset is_train config_k name sd = Ok self ->
  0 <= index < py_len (processed_data self) ->
  exists utterance x g' r1 r2 rT,
    let data := processed_data self in
    let index' := advance (sentence_id utterance) index in
    py_getitem data index = Ok utterance /\
    (sentence_id utterance = 0 -> index' = index + 2) /\
    (sentence_id utterance = 1 -> index' = index + 1) /\
    (2 <= sentence_id utterance -> index' = index) /\
    triplet_getitem R self index g = (Ok x, g') /\
    2 <= t_T x /\
    0 <= t_t_ x /\ t_t_ x < t_t x /\ t_t x < t_T x /\
    py_getitem data (index' - t_T x + t_t_ x) = Ok r1 /\
    py_getitem data (index' - t_T x + t_t x) = Ok r2 /\
    py_getitem data index' = Ok rT /\
    sentence_id r1 = t_t_ x /\ sentence_id r2 = t_t x /\
    sentence_id rT = t_T x /\
    doc_id r1 = doc_id rT /\ doc_id r2 = doc_id rT /\
    doc_id rT = doc_id utterance /\
    t_y_0 x = sentence r1 /\ t_y_t x = sentence r2 /\ t_y_T x = sentence rT /\
    t_total_t x = total_doc_sentences utterance.
Proof.
  intros HR Hinit Hindex.
  pose proof (init_flattened _ _ _ _ _ _ _ Hinit) as Hflat.
  destruct (py_getitem_in_range _ _ Hindex) as [u Hu].
  destruct (advance_in_unit _ _ _ Hflat (proj1 Hindex) Hu)
    as (rT & HrT & HdT & HtotT & HT & Hi' & Hstart & Hadv0 & Hadv1 & Hadv2).
  set (index' := advance (sentence_id u) index) in *.
  destruct (flattened_span _ _ _ Hflat Hi' HrT)
    as (_ & HsidT & _ & _ & _ & Hunit & _).
  destruct (two_draws R (sentence_id rT) g HR HT)
    as (a & nums & b & g1 & g2 & Ea & Enums & Eb & Ha & Hb & Hab).
  set (t1 := Z.min a b). set (t2 := Z.max a b).
  destruct (Hunit t1) as (r1 & Hr1 & Hd1 & Hs1 & _); [unfold t1; lia|].
  destruct (Hunit t2) as (r2 & Hr2 & Hd2 & Hs2 & _); [unfold t2; lia|].
  exists u,
    (mkTriplet (sentence r1) (sentence r2) (sentence rT) t1 t2
       (sentence_id rT) (total_doc_sentences rT)),
    g2, r1, r2, rT.
  cbv zeta. fold index'. cbn [t_T t_t_ t_t t_y_0 t_y_t t_y_T t_total_t].
  split; [assumption|]. split; [assumption|]. split; [assumption|].
  split; [assumption|]. split.
  - unfold triplet_getitem, bindM, lift. rewrite Hu. cbv beta iota zeta.
    fold index'. rewrite HrT, Ea, Enums, Eb.
    assert (Hpair : (if b <? a then (b, a) else (a, b)) = (t1, t2)).
    { unfold t1, t2. destruct (Z.ltb_spec b a); f_equal; lia. }
    rewrite Hpair.
    assert (Hassert : (t1 <? t2) && (t2 <? sentence_id rT) = true).
    { apply andb_true_intro. split; apply Z.ltb_lt; unfold t1, t2; lia. }
    rewrite Hassert. cbn [py_assert bind]. rewrite Hr1. cbn [bind].
    rewrite Hr2. reflexivity.
  - unfold t1, t2 in *. repeat (split; [solve [assumption | lia | congruence]|]).
    congruence.
Qed.

Lemma triplet_ordered_witness :
  triplet_getitem tape (tea_dataset 2) 7 [1; 0] =
  (Ok (mkTriplet "[ TITLE ] Make Tea . " "[ METHOD ] Steep . "
         "[ STEP ] 0 Add the tea . " 0 1 2 3), []).
Proof.
  destruct (triplet_ordered tape char_tokens tea_corpus false 2 "GPT2" 1
              (tea_dataset 2) 7 [1; 0] tape_sound (tea_init 2)
              (tea_index_valid 2 7 ltac:(lia)))
    as (u & x & g' & r1 & r2 & rT & _ & _ & _ & _ & Hx & _).
  rewrite Hx. vm_compute in Hx. injection Hx as <- <-. reflexivity.
Defined.

(** * Windowed context *)

Lemma py_getitem_fun {A} (l : list A) i (a b : A) :
  py_getitem l i = Ok a -> py_getitem l i = Ok b -> a = b.
Proof. congruence. Qed.

(** With [k = 1]: the pair the strategy settles on. *)
Lemma step_back_pair data index :
  flattened data -> 0 <= index < py_len data - 1 ->
  exists a b r_t r_tpk,
    let index' := if negb (doc_id a =? doc_id b) then index - 1 else index in
    py_getitem data index = Ok a /\
    py_getitem data (index + 1) = Ok b /\
    0 <= index' /\ index' + 1 < py_len data /\
    py_getitem data index' = Ok r_t /\
    py_getitem data (index' + 1) = Ok r_tpk /\
    sentence_id r_tpk = sentence_id r_t + 1 /\
    doc_id r_tpk = doc_id r_t /\
    total_doc_sentences r_t <> 0.
Proof.
  intros Hflat Hindex.
  destruct (py_getitem_in_range data index ltac:(lia)) as [a Ha].
  destruct (py_getitem_in_range data (index + 1) ltac:(lia)) as [b Hb].
  destruct (flattened_span _ _ _ Hflat (proj1 Hindex) Ha)
    as (Hn & Hsid & Hstart & Hend & _ & Hunit & Honly).
  exists a, b. destruct (Z.eqb_spec (doc_id a) (doc_id b)) as [Hd|Hd]; cbn [negb].
  - exists a, b. cbv zeta.
    specialize (Honly (index + 1) b ltac:(lia) Hb (eq_sym Hd)).
    destruct (Hunit (sentence_id a + 1)) as (r' & Hr' & _ & Hs & _); [lia|].
    replace (index - sentence_id a + (sentence_id a + 1)) with (index + 1)
      in Hr' by lia.
    rewrite (py_getitem_fun _ _ _ _ Hb Hr').
    repeat (split; [solve [assumption | lia | congruence]|]). lia.
  - destruct (Z.eq_dec (sentence_id a + 1) (total_doc_sentences a)) as [Hlast|Hmid].
    + destruct (Hunit (sentence_id a - 1)) as (r' & Hr' & Hd' & Hs' & Ht'); [lia|].
      replace (index - sentence_id a + (sentence_id a - 1)) with (index - 1)
        in Hr' by lia.
      exists r', a. cbv zeta.
      replace (index - 1 + 1) with index by lia.
      repeat (split; [solve [assumption | lia | congruence]|]). lia.
    + exfalso.
      destruct (Hunit (sentence_id a + 1)) as (r' & Hr' & Hd' & _); [lia|].
      replace (index - sentence_id a + (sentence_id a + 1)) with (index + 1)
        in Hr' by lia.
      rewrite (py_getitem_fun _ _ _ _ Hb Hr') in Hd. congruence.
Qed.

Lemma lag_record_spec data index lag cur :
  0 <= index -> 1 <= lag -> py_getitem data index = Ok cur ->
  exists pos r,
    lag_record data index lag = Ok r /\
    py_getitem data pos = Ok r /\
    (pos = index - lag <-> shares_unit data index lag cur) /\
    (~ shares_unit data index lag cur -> pos = index).
Proof.
  intros Hi Hlag Hcur.
  destruct (Z.ltb_spec (index - lag) 0) as [Hneg|Hpos].
  - exists index, cur. split.
    { unfold lag_record. destruct (Z.ltb_spec (index - lag) 0); [|lia].
      exact Hcur. }
    split; [assumption|]. split; [|reflexivity].
    unfold shares_unit. split; [lia|]. intros [H _]. lia.
  - pose proof (py_getitem_Ok_range _ _ _ Hi Hcur) as Hrange.
    destruct (py_getitem_in_range data (index - lag) ltac:(lia)) as [prev Hprev].
    assert (Hlag_eq : lag_record data index lag =
                      if negb (doc_id cur =? doc_id prev)
                      then Ok cur else Ok prev).
    { unfold lag_record. destruct (Z.ltb_spec (index - lag) 0); [lia|].
      rewrite Hcur, Hprev. cbv beta iota delta [bind].
      destruct (negb (doc_id cur =? doc_id prev)); reflexivity. }
    rewrite Hlag_eq.
    destruct (Z.eqb_spec (doc_id cur) (doc_id prev)) as [Hd|Hd];
      cbv beta iota delta [negb].
    + assert (Hshares : shares_unit data index lag cur).
      { split; [assumption|]. exists prev. split; [assumption|congruence]. }
      exists (index - lag), prev. split; [reflexivity|]. split; [assumption|].
      split; [tauto|]. intros Hn. contradiction.
    + assert (Hshares : ~ shares_unit data index lag cur).
      { intros (_ & prev' & Hprev' & Hd').
        rewrite (py_getitem_fun _ _ _ _ Hprev Hprev') in Hd. congruence. }
      exists index, cur. split; [reflexivity|]. split; [assumption|].
      split; [|reflexivity]. split; [lia|]. intros H. contradiction.
Qed.

Lemma tpk_window_k1 self index a b r_t r_tpk :
  k self = 1 ->
  let data := processed_data self in
  let index' := if negb (doc_id a =? doc_id b) then index - 1 else index in
  py_getitem data index = Ok a ->
  py_getitem data (index + 1) = Ok b ->
  py_getitem data index' = Ok r_t ->
  py_getitem data (index' + 1) = Ok r_tpk ->
  total_doc_sentences r_t <> 0 ->
  step_back data index = Ok index' /\
  tpk_window self index = Ok (index', sentence r_t, sentence r_tpk).
Proof.
  cbv zeta. intros Hk Ha Hb Ht Htpk Htot.
  assert (Hstep : step_back (processed_data self) index =
                  Ok (if negb (doc_id a =? doc_id b) then index - 1 else index)).
  { unfold step_back. rewrite Ha, Hb. reflexivity. }
  split; [assumption|].
  unfold tpk_window. rewrite Hk. cbv beta iota delta [Z.eqb Pos.eqb].
  rewrite Hstep. cbv beta iota delta [bind].
  rewrite Ht, Htpk. unfold py_truediv_defined.
  destruct (Z.eqb_spec (total_doc_sentences r_t) 0); [contradiction|].
  reflexivity.
Qed.

Lemma tpk_getitem_lags self index index' yt ytp1 cur :
  tpk_window self index = Ok (index', yt, ytp1) ->
  0 <= index' -> py_getitem (processed_data self) index' = Ok cur ->
  exists x,
    tpk_getitem self index = Ok x /\ y_t x = yt /\ y_tpk x = ytp1 /\
    forall lag, lag = 1 \/ lag = 2 \/ lag = 3 ->
      exists pos r,
        py_getitem (processed_data self) pos = Ok r /\
        y_tm lag x = sentence r /\
        (pos = index' - lag <->
         shares_unit (processed_data self) index' lag cur) /\
        (~ shares_unit (processed_data self) index' lag cur -> pos = index').
Proof.
  intros Hw Hi Hcur.
  destruct (lag_record_spec _ _ 1 _ Hi ltac:(lia) Hcur)
    as (p1 & r1 & E1 & G1 & S1 & N1).
  destruct (lag_record_spec _ _ 2 _ Hi ltac:(lia) Hcur)
    as (p2 & r2 & E2 & G2 & S2 & N2).
  destruct (lag_record_spec _ _ 3 _ Hi ltac:(lia) Hcur)
    as (p3 & r3 & E3 & G3 & S3 & N3).
  exists (mkTPK yt (sentence r1) (sentence r2) (sentence r3) ytp1).
  split.
  - unfold tpk_getitem. rewrite Hw. cbv beta iota delta [bind].
    rewrite E1, E2, E3. reflexivity.
  - split; [reflexivity|]. split; [reflexivity|].
    intros lag [-> | [-> | ->]].
    + exists p1, r1. auto.
    + exists p2, r2. auto.
    + exists p3, r3. auto.
Qed.

(** C7. With [k = 1], for every index below the dataset's length: the
    strategy reads the records at [index] and [index + 1] and, when their
    [doc_id]s differ, steps the index back by one; the sample's [y_t] and
    [y_tpk] are then the texts of two neighbouring records of one unit,
    the second with the [sentence_id] of the first plus one.  (Every unit
    of a constructed dataset has at least three records, so the claim's
    condition on the unit's length always holds.) *)
Theorem tpk_adjacent
  (count_tokens : backend -> string -> Z) (all_dataset : Z -> result doc)
  (is_train : bool) (name : string) (sd : Z) (self : dataset) (index : Z) :
  init count_tokens all_dataset is_train 1 name sd = Ok self ->
  0 <= index < len self ->
  exists a b r_t r_tpk x,
    let data := processed_data self in
    let index' := if negb (doc_id a =? doc_id b) then index - 1 else index in
    py_getitem data index = Ok a /\
    py_getitem data (index + 1) = Ok b /\
    2 <= total_doc_sentences a /\
    step_back data index = Ok index' /\
    (doc_id a <> doc_id b -> index' = index - 1) /\
    (doc_id a = doc_id b -> index' = index) /\
    py_getitem data index' = Ok r_t /\
    py_getitem data (index' + 1) = Ok r_tpk /\
    tpk_getitem self index = Ok x /\
    y_t x = sentence r_t /\ y_tpk x = sentence r_tpk /\
    sentence_id r_tpk = sentence_id r_t + 1 /\
    doc_id r_tpk = doc_id r_t.
Proof.
  intros Hinit Hindex. unfold len in Hindex.
  pose proof (init_flattened _ _ _ _ _ _ _ Hinit) as Hflat.
  pose proof (init_k _ _ _ _ _ _ _ Hinit) as Hk.
  destruct (step_back_pair _ _ Hflat Hindex)
    as (a & b & r_t & r_tpk & Ha & Hb & Hi' & Hend & Ht & Htpk & Hs & Hd & Htot).
  destruct (flattened_span _ _ _ Hflat (proj1 Hindex) Ha) as (Hn & _).
  destruct (tpk_window_k1 self index a b r_t r_tpk Hk Ha Hb Ht Htpk Htot)
    as [Hstep Hw].
  destruct (tpk_getitem_lags self index _ _ _ r_t Hw Hi' Ht)
    as (x & Hx & Hyt & Hytpk & _).
  exists a, b, r_t, r_tpk, x. cbv zeta.
  split; [assumption|]. split; [assumption|]. split; [lia|].
  split; [assumption|]. split.
  { intros Hne. destruct (Z.eqb_spec (doc_id a) (doc_id b)); [contradiction|].
    reflexivity. }
  split.
  { intros He. destruct (Z.eqb_spec (doc_id a) (doc_id b)); [|contradiction].
    reflexivity. }
  auto 10.
Qed.

Lemma tea_len_valid (config_k i : Z) :
  0 <= i < 999 -> 0 <= i < len (tea_dataset config_k).
Proof. intros H. exact H. Qed.

Lemma tpk_adjacent_witness :
  tpk_getitem (tea_dataset 1) 6 =
  Ok (mkTPK "[ STEP ] 1 Switch on . " "Fill to the line . " "Use cold water . "
        "[ STEP ] 0 Fill the kettle . " "Wait . ") /\
  step_back tea_data 6 = Ok 5.
Proof.
  destruct (tpk_adjacent char_tokens tea_corpus false "GPT2" 1
              (tea_dataset 1) 6 (tea_init 1) (tea_len_valid 1 6 ltac:(lia)))
    as (a & b & r_t & r_tpk & x & Ha & Hb & _ & Hstep & _ & _ & _ & _ & Hx & _).
  vm_compute in Ha, Hb. injection Ha as <-. injection Hb as <-.
  split; [|exact Hstep].
  rewrite Hx. vm_compute in Hx. injection Hx as <-. reflexivity.
Defined.

Lemma tpk_window_kn self index u a b :
  k self <> 1 ->
  let data := processed_data self in
  let tp1 := Z.min (total_doc_sentences u - 1) (sentence_id u + k self) in
  let t := Z.max 0 (tp1 - k self) in
  py_getitem data index = Ok u ->
  py_getitem data (index + (t - sentence_id u)) = Ok a ->
  py_getitem data (index + (tp1 - sentence_id u)) = Ok b ->
  total_doc_sentences u <> 0 ->
  tpk_window self index = Ok (index, sentence a, sentence b).
Proof.
  cbv zeta. intros Hk Hu Ha Hb Htot. unfold tpk_window.
  destruct (Z.eqb_spec (k self) 1); [contradiction|].
  rewrite Hu. cbv beta iota delta [bind]. rewrite Ha, Hb.
  unfold py_truediv_defined.
  destruct (Z.eqb_spec (total_doc_sentences u) 0); [contradiction|].
  reflexivity.
Qed.

(** C8. For every index below the length of a constructed dataset and
    every window size [k >= 1], the windowed strategy returns a sample
    whose three backward-lag texts are read as follows, [index'] being the
    index once the [k = 1] branch has possibly stepped it back (the index
    itself when [k > 1]): for each lag in 1, 2, 3 the text [y_tm{lag}] is
    that of the record at [index' - lag] if and only if [index' - lag >= 0]
    and that record has the [doc_id] of the record at [index']; otherwise
    it is the text of the record at [index']. *)
Theorem tpk_lags
  (count_tokens : backend -> string -> Z) (all_dataset : Z -> result doc)
  (is_train : bool) (config_k : Z) (name : string) (sd : Z)
  (self : dataset) (index : Z) :
  init count_tokens all_dataset is_train config_k name sd = Ok self ->
  1 <= config_k ->
  0 <= index < len self ->
  exists index' cur x,
    let data := processed_data self in
    (config_k = 1 -> step_back data index = Ok index') /\
    (config_k <> 1 -> index' = index) /\
    py_getitem data index' = Ok cur /\
    tpk_getitem self index = Ok x /\
    forall lag, lag = 1 \/ lag = 2 \/ lag = 3 ->
      exists pos r,
        py_getitem data pos = Ok r /\
        y_tm lag x = sentence r /\
        (pos = index' - lag <-> shares_unit data index' lag cur) /\
        (~ shares_unit data index' lag cur -> pos = index').
Proof.
  intros Hinit Hk Hindex. unfold len in Hindex.
  pose proof (init_flattened _ _ _ _ _ _ _ Hinit) as Hflat.
  pose proof (init_k _ _ _ _ _ _ _ Hinit) as Hkself.
  destruct (Z.eq_dec config_k 1) as [Hk1|Hk1].
  - destruct (step_back_pair _ _ Hflat Hindex)
      as (a & b & r_t & r_tpk & Ha & Hb & Hi' & Hend & Ht & Htpk & Hs & Hd & Htot).
    destruct (tpk_window_k1 self index a b r_t r_tpk ltac:(congruence)
                Ha Hb Ht Htpk Htot) as [Hstep Hw].
    destruct (tpk_getitem_lags self index _ _ _ r_t Hw Hi' Ht)
      as (x & Hx & _ & _ & Hlags).
    eexists _, r_t, x. cbv zeta.
    split; [intros _; exact Hstep|]. split; [contradiction|].
    split; [assumption|]. split; assumption.
  - destruct (py_getitem_in_range (processed_data self) index ltac:(lia))
      as [u Hu].
    destruct (window_in_unit (processed_data self) config_k index u Hflat
                ltac:(lia) ltac:(lia) Hu)
      as (_ & _ & a & b & Ha & Hb & _).
    destruct (flattened_span _ _ _ Hflat (proj1 Hindex) Hu) as (Hn & _).
    rewrite <- Hkself in Ha, Hb.
    pose proof (tpk_window_kn self index u a b ltac:(congruence) Hu Ha Hb
                  ltac:(lia)) as Hw.
    destruct (tpk_getitem_lags self index _ _ _ u Hw (proj1 Hindex) Hu)
      as (x & Hx & _ & _ & Hlags).
    exists index, u, x. cbv zeta.
    split; [contradiction|]. split; [reflexivity|].
    split; [assumption|]. split; assumption.
Qed.

Lemma tpk_lags_witness :
  exists x,
    tpk_getitem (tea_dataset 3) 8 = Ok x /\
    y_tm 1 x = "[ TITLE ] Make Tea . " /\
    y_tm 2 x = "[ METHOD ] Steep . " /\
    y_tm 3 x = "[ METHOD ] Steep . ".
Proof.
  destruct (tpk_lags char_tokens tea_corpus false 3 "GPT2" 1
              (tea_dataset 3) 8 (tea_init 3) ltac:(lia)
              (tea_len_valid 3 8 ltac:(lia)))
    as (index' & cur & x & _ & _ & _ & Hx & _).
  exists x. split; [exact Hx|].
  vm_compute in Hx. injection Hx as <-. repeat split; reflexivity.
Defined.

(** C10. The reported length is the number of records minus one; hence no
    index in [0, length) is the index of the final record, the record at
    [index + 1] exists, and so does the record one past the index the
    [k = 1] branch of the windowed strategy settles on. *)
Theorem len_excludes_last (self : dataset) :
  len self = py_len (processed_data self) - 1 /\
  forall index, 0 <= index < len self ->
    index <> py_len (processed_data self) - 1 /\
    0 <= index + 1 < py_len (processed_data self) /\
    exists a b index',
      py_getitem (processed_data self) index = Ok a /\
      py_getitem (processed_data self) (index + 1) = Ok b /\
      step_back (processed_data self) index = Ok index' /\
      0 <= index' + 1 < py_len (processed_data self) /\
      exists c, py_getitem (processed_data self) (index' + 1) = Ok c.
Proof.
  split; [reflexivity|].
  intros index Hindex. unfold len in Hindex.
  split; [lia|]. split; [lia|].
  destruct (py_getitem_in_range (processed_data self) index ltac:(lia))
    as [a Ha].
  destruct (py_getitem_in_range (processed_data self) (index + 1) ltac:(lia))
    as [b Hb].
  exists a, b, (if negb (doc_id a =? doc_id b) then index - 1 else index).
  split; [assumption|]. split; [assumption|]. split.
  { unfold step_back. rewrite Ha, Hb. reflexivity. }
  assert (Hin : 0 <= (if negb (doc_id a =? doc_id b) then index - 1 else index) + 1
                < py_len (processed_data self))
    by (destruct (negb (doc_id a =? doc_id b)); lia).
  split; [assumption|]. apply py_getitem_in_range. assumption.
Qed.

Lemma len_excludes_last_witness :
  len (tea_dataset 1) = 999 /\
  exists c, py_getitem tea_data (5 + 1) = Ok c.
Proof.
  destruct (len_excludes_last (tea_dataset 1)) as [Hlen Hall].
  split; [exact Hlen|].
  destruct (Hall 6 (tea_len_valid 1 6 ltac:(lia)))
    as (_ & _ & a & b & index' & _ & _ & Hstep & _ & c & Hc).
  vm_compute in Hstep. injection Hstep as <-.
  exists c. exact Hc.
Defined.

(** * The generator and the seed *)

Lemma getitem_seed_irrelevant R s tr config_k sd1 sd2 b data fl index :
  getitem R s (mkDataset tr config_k sd1 b data fl) index =
  getitem R s (mkDataset tr config_k sd2 b data fl) index.
Proof. destruct s; reflexivity. Qed.

Lemma sample_seq_ext R (get1 get2 : Z -> M R item) indices :
  (forall i, get1 i = get2 i) ->
  sample_seq R get1 indices = sample_seq R get2 indices.
Proof.
  intros H. induction indices as [|i indices IH]; [reflexivity|].
  cbn [sample_seq]. rewrite H, IH. reflexivity.
Qed.

(** C9, as the claim words it, fails: construction does not seed the
    generator, so two runs built with the same seed, configuration and
    corpus whose process-wide generators start in different states draw
    different labels. *)
Lemma same_seed_counterexample :
  fst (run tape char_tokens tea_corpus Discourse false 2 "GPT2" 1
         (Some false) [0] [0]) <>
  fst (run tape char_tokens tea_corpus Discourse false 2 "GPT2" 1
         (Some false) [0] [1]).
Proof. vm_compute. discriminate. Qed.

(** C9, amended. The generator used for the label and pair draws is the
    process-wide one; dataset construction only stores the configured seed
    and neither seeds nor advances the generator.  The sequence of
    sampling outputs, and the state the generator is left in, are fixed by
    the configuration, the corpus and the state of the generator when the
    run starts, and are the same whatever the seed. *)
Theorem seed_only_stored
  (R : generator) (count_tokens : backend -> string -> Z)
  (all_dataset : Z -> result doc) (s : strategy) (is_train : bool)
  (config_k : Z) (name : string) (seed1 seed2 : Z) (flag : option bool)
  (indices : list Z) (g : G R) :
  run R count_tokens all_dataset s is_train config_k name seed1 flag indices g =
  run R count_tokens all_dataset s is_train config_k name seed2 flag indices g.
Proof.
  unfold run, bindM, lift, init.
  destruct (slice is_train) as [a z].
  destruct (set_tokenizer name) as [b|e]; cbv beta iota delta [bind];
    [|reflexivity].
  destruct (process_data count_tokens all_dataset b a z) as [data|e];
    [|reflexivity].
  destruct flag as [f|]; cbv beta iota delta [set_one_hot_labels];
    cbn [train k seed tokenizer processed_data one_hot_labels];
    f_equal; apply sample_seq_ext; intros i;
    apply getitem_seed_irrelevant.
Qed.

(** * Further properties of the flattener *)

(** ** Units are rendered groups *)

Lemma rendered_unit_ge3 u : rendered_unit u -> (3 <= length u)%nat.
Proof.
  intros (t & m & st & sts & ->). apply all_sentences_kept_3.
Qed.

Section RenderedFacts.

Variable count_tokens : backend -> string -> Z.
Variable all_dataset : Z -> result doc.

Lemma process_method_rendered b t st g :
  snd g <> [] -> state_rendered st ->
  state_rendered (process_method count_tokens b t st g).
Proof.
  destruct st as [data c], g as [name sts]. simpl snd.
  intros Hne (us & Hdata & Hc & Hall). simpl in Hdata, Hc.
  rewrite process_method_eq.
  destruct (under_threshold count_tokens b (all_sentences t name sts)).
  - exists (us ++ [filter kept (all_sentences t name sts)]). simpl.
    rewrite build_app. cbn [build]. rewrite app_nil_r, Z.add_0_l.
    subst data c. split; [reflexivity|]. split.
    + unfold py_len. rewrite length_app. simpl. lia.
    + apply Forall_app. split; [assumption|].
      constructor; [|constructor].
      destruct sts as [|st sts]; [contradiction|].
      now exists t, name, st, sts.
  - exists us. auto.
Qed.

Lemma process_doc_rendered b st d :
  state_rendered st -> state_rendered (process_doc count_tokens b st d).
Proof.
  unfold process_doc. generalize (method2steps_nonempty d).
  generalize (method2steps d) as gs. intros gs. revert st.
  induction gs as [|g gs IH]; intros st Hgs Hst; simpl; auto.
  inversion Hgs; subst. apply IH; auto using process_method_rendered.
Qed.

Lemma process_range_rendered b ids : forall st st',
  state_rendered st ->
  process_range count_tokens all_dataset b ids st = Ok st' ->
  state_rendered st'.
Proof.
  induction ids as [|i ids IH]; intros st st' Hst H; simpl in H.
  - now inversion H; subst.
  - destruct (all_dataset i) as [d|e]; simpl in H; [|discriminate].
    eapply IH; [|exact H]. now apply process_doc_rendered.
Qed.

Lemma init_rendered is_train config_k name sd self :
  init count_tokens all_dataset is_train config_k name sd = Ok self ->
  exists us, processed_data self = build 0 us /\ Forall rendered_unit us.
Proof.
  unfold init. destruct (slice is_train) as [a z].
  destruct (set_tokenizer name) as [b|]; simpl; [|discriminate].
  unfold process_data.
  destruct (process_range count_tokens all_dataset b (py_range a z) ([], 0))
    as [st|] eqn:E; simpl; [|discriminate].
  destruct (py_getitem (fst st) 0); simpl; [|discriminate].
  destruct (py_getitem (fst st) 10); simpl; [|discriminate].
  intros [= <-]. simpl.
  assert (H0 : state_rendered ([], 0)) by (exists []; repeat split; constructor).
  destruct (process_range_rendered _ _ _ _ H0 E) as (us & H & _ & Hall).
  exists us. auto.
Qed.

End RenderedFacts.

(** The unit and the place in it that a record comes from. *)
Lemma build_nth_unit us : forall d i r,
  nth_error (build d us) i = Some r ->
  exists u j, In u us /\ nth_error u j = Some (sentence r) /\
              sentence_id r = Z.of_nat j /\
              total_doc_sentences r = py_len u.
Proof.
  induction us as [|u us IH]; intros d i r H; simpl in H.
  - destruct i; discriminate.
  - destruct (Nat.lt_ge_cases i (length (unit_of d u))) as [Hlt|Hge].
    + rewrite nth_error_app1 in H by assumption.
      apply unit_of_nth in H as (s & Hs & ->).
      exists u, i. simpl. auto.
    + rewrite nth_error_app2 in H by assumption.
      destruct (IH _ _ _ H) as (u' & j & Hin & Hrest).
      exists u', j. simpl. auto.
Qed.

Lemma record_in_rendered_unit count_tokens all_dataset is_train config_k
  name sd self i r :
  init count_tokens all_dataset is_train config_k name sd = Ok self ->
  0 <= i -> py_getitem (processed_data self) i = Ok r ->
  exists t m st sts j,
    nth_error (filter kept (all_sentences t m (st :: sts))) j =
      Some (sentence r) /\
    sentence_id r = Z.of_nat j.
Proof.
  intros Hinit Hi Hr.
  destruct (init_rendered _ _ _ _ _ _ _ Hinit) as (us & Hdata & Hall).
  rewrite Hdata in Hr. apply py_getitem_nth in Hr; [|assumption].
  destruct (build_nth_unit _ _ _ _ Hr) as (u & j & Hin & Hj & Hsid & _).
  rewrite Forall_forall in Hall.
  destruct (Hall u Hin) as (t & m & st & sts & ->).
  exists t, m, st, sts, j. auto.
Qed.

Lemma tea_getitem (config_k i : Z) r :
  py_getitem tea_data i = Ok r ->
  py_getitem (processed_data (tea_dataset config_k)) i = Ok r.
Proof. intros H. exact H. Qed.

(** X1. No record of a constructed dataset holds the empty sentence or the
    bare delimiter: the two [continue]s of lines 71-74 drop them before a
    [sentence_id] is given out. *)
Theorem records_not_blank
  (count_tokens : backend -> string -> Z) (all_dataset : Z -> result doc)
  (is_train : bool) (config_k : Z) (name : string) (sd : Z) (self : dataset)
  (i : Z) (r : sentence_info) :
  init count_tokens all_dataset is_train config_k name sd = Ok self ->
  0 <= i -> py_getitem (processed_data self) i = Ok r ->
  sentence r <> "" /\ sentence r <> " . ".
Proof.
  intros Hinit Hi Hr.
  destruct (record_in_rendered_unit _ _ _ _ _ _ _ _ _ Hinit Hi Hr)
    as (t & m & st & sts & j & Hj & _).
  apply nth_error_In, filter_In in Hj as [_ Hkept].
  unfold kept in Hkept. apply andb_prop in Hkept as [H1 H2].
  split; intros E; rewrite E in *; discriminate.
Qed.

Lemma records_not_blank_witness :
  "[ STEP ] 0 Add the tea . " <> "" /\ "[ STEP ] 0 Add the tea . " <> " . ".
Proof.
  exact (records_not_blank char_tokens tea_corpus false 1 "GPT2" 1
           (tea_dataset 1) 9 (mkInfo "[ STEP ] 0 Add the tea . " 2 1 3)
           (tea_init 1) ltac:(lia) eq_refl).
Defined.

Section GroupedFacts.

Variable count_tokens : backend -> string -> Z.
Variable all_dataset : Z -> result doc.
Variable P : doc -> Prop.

Lemma process_groups_grouped b d gs : forall st,
  P d ->
  (forall g, In g gs -> In g (method2steps d)) ->
  state_grouped P st ->
  state_grouped P (fold_left (process_method count_tokens b (title d)) gs st).
Proof.
  induction gs as [|[name sts] gs IH]; intros st Hd Hgs Hst; [assumption|].
  cbn [fold_left]. apply IH; [assumption| |].
  - intros g Hg. apply Hgs. now right.
  - destruct st as [data c]. destruct Hst as (us & Hdata & Hc & Hall).
    simpl in Hdata, Hc. rewrite process_method_eq.
    destruct (under_threshold _ _ _); [|exists us; auto].
    exists (us ++ [filter kept (all_sentences (title d) name sts)]).
    cbn [fst snd]. rewrite build_app. cbn [build].
    rewrite app_nil_r, Z.add_0_l. subst data c.
    split; [reflexivity|]. split.
    + unfold py_len. rewrite length_app. simpl. lia.
    + apply Forall_app. split; [assumption|].
      constructor; [|constructor].
      assert (Hin : In (name, sts) (method2steps d)) by (apply Hgs; now left).
      pose proof (method2steps_nonempty d) as Hne.
      rewrite Forall_forall in Hne. specialize (Hne _ Hin). simpl in Hne.
      destruct sts as [|st sts]; [contradiction|].
      now exists d, name, st, sts.
Qed.

Lemma process_range_grouped b ids : forall st st',
  (forall i d, In i ids -> all_dataset i = Ok d -> P d) ->
  state_grouped P st ->
  process_range count_tokens all_dataset b ids st = Ok st' ->
  state_grouped P st'.
Proof.
  induction ids as [|i ids IH]; intros st st' HP Hst H; simpl in H.
  - now injection H as <-.
  - destruct (all_dataset i) as [d|e] eqn:E; simpl in H; [|discriminate].
    eapply IH; [| |exact H].
    + intros i' d' Hi'. apply HP. now right.
    + unfold process_doc. apply process_groups_grouped; auto.
      apply (HP i d); [now left|assumption].
Qed.

End GroupedFacts.

Lemma init_grouped count_tokens all_dataset is_train config_k name sd self :
  init count_tokens all_dataset is_train config_k name sd = Ok self ->
  exists us,
    processed_data self = build 0 us /\
    Forall (group_unit (fun d =>
              exists j, fst (slice is_train) <= j < snd (slice is_train) /\
                        all_dataset j = Ok d)) us.
Proof.
  unfold init. destruct (slice is_train) as [a z]. cbn [fst snd].
  destruct (set_tokenizer name) as [b|]; simpl; [|discriminate].
  unfold process_data.
  destruct (process_range count_tokens all_dataset b (py_range a z) ([], 0))
    as [st|] eqn:E; simpl; [|discriminate].
  destruct (py_getitem (fst st) 0); simpl; [|discriminate].
  destruct (py_getitem (fst st) 10); simpl; [|discriminate].
  intros [= <-]. simpl.
  destruct (process_range_grouped count_tokens all_dataset
              (fun d => exists j, a <= j < z /\ all_dataset j = Ok d)
              b (py_range a z) ([], 0) st) as (us & H & _ & Hall).
  - intros i d Hi Hd. exists i. split; [|assumption].
    now apply py_range_In.
  - exists []. repeat split. constructor.
  - assumption.
  - exists us. auto.
Qed.

Lemma unit_of_nth_some d u j s :
  nth_error u j = Some s ->
  nth_error (unit_of d u) j = Some (mkInfo s (Z.of_nat j) d (py_len u)).
Proof.
  intros H. unfold unit_of. rewrite unit_records_nth, H. reflexivity.
Qed.

(** The unit a record lies in, sentence by sentence. *)
Lemma build_unit_at us : forall d i r,
  nth_error (build d us) i = Some r ->
  exists u start,
    In u us /\ Z.of_nat start = Z.of_nat i - sentence_id r /\
    forall j s, nth_error u j = Some s ->
      exists r', nth_error (build d us) (start + j) = Some r' /\
                 sentence r' = s /\ doc_id r' = doc_id r /\
                 sentence_id r' = Z.of_nat j.
Proof.
  induction us as [|u us IH]; intros d i r H; simpl in H.
  - destruct i; discriminate.
  - pose proof (unit_of_length d u) as Hlen.
    destruct (Nat.lt_ge_cases i (length (unit_of d u))) as [Hlt|Hge].
    + rewrite nth_error_app1 in H by assumption.
      apply unit_of_nth in H as (s0 & _ & ->).
      exists u, 0%nat. split; [now left|]. split; [simpl; lia|].
      intros j s Hs. eexists. split.
      * cbn [build Nat.add]. rewrite nth_error_app1
          by (rewrite Hlen; apply nth_error_Some; congruence).
        apply unit_of_nth_some, Hs.
      * simpl. auto.
    + rewrite nth_error_app2 in H by assumption.
      destruct (IH _ _ _ H) as (u' & start & Hin & Hstart & Hunit).
      exists u', (length u + start)%nat.
      split; [now right|]. split; [rewrite Hlen in *; lia|].
      intros j s Hs. destruct (Hunit j s Hs) as (r' & Hr' & Hrest).
      exists r'. split; [|assumption].
      simpl build. rewrite nth_error_app2 by (rewrite Hlen; lia).
      rewrite <- Hr'. f_equal. rewrite Hlen. lia.
Qed.


(** ** Every sentence ends with the delimiter *)

Lemma startswith_app p : forall s,
  PyStr.startswith p s = true -> exists q, s = (p ++ q)%string.
Proof.
  induction p as [|a p IH]; intros s H.
  - exists s. reflexivity.
  - destruct s as [|b s]; [discriminate|]. simpl in H.
    apply andb_prop in H as [Hab Hps].
    apply Ascii.eqb_eq in Hab. subst b.
    destruct (IH s Hps) as [q ->]. exists q. reflexivity.
Qed.

Lemma rev_onto_acc s : forall acc,
  PyStr.rev_onto s acc = (PyStr.rev s ++ acc)%string.
Proof.
  unfold PyStr.rev. induction s as [|c s IH]; intros acc; [reflexivity|].
  simpl. rewrite IH, (IH (String c EmptyString)), string_app_assoc.
  reflexivity.
Qed.

Lemma string_app_nil_r (s : string) : (s ++ "")%string = s.
Proof. induction s; simpl; congruence. Qed.

Lemma rev_app a b :
  PyStr.rev (a ++ b)%string = (PyStr.rev b ++ PyStr.rev a)%string.
Proof.
  unfold PyStr.rev at 1. rewrite rev_onto_append, rev_onto_acc.
  reflexivity.
Qed.

Lemma rev_involutive s : PyStr.rev (PyStr.rev s) = s.
Proof.
  induction s as [|c s IH]; [reflexivity|].
  change (String c s) with ((String c EmptyString) ++ s)%string at 1.
  rewrite rev_app, rev_app, IH. reflexivity.
Qed.

Lemma endswith_elim s p :
  PyStr.endswith s p = true -> exists q, s = (q ++ p)%string.
Proof.
  unfold PyStr.endswith. intros H.
  apply startswith_app in H as [q Hq].
  exists (PyStr.rev q).
  rewrite <- (rev_involutive s), Hq, rev_app, rev_involutive. reflexivity.
Qed.

Lemma startswith_refl_app p q : PyStr.startswith p (p ++ q) = true.
Proof.
  induction p as [|a p IH]; [reflexivity|].
  simpl. now rewrite Ascii.eqb_refl, IH.
Qed.

Lemma endswith_intro q p : PyStr.endswith (q ++ p) p = true.
Proof.
  unfold PyStr.endswith. rewrite rev_app. apply startswith_refl_app.
Qed.

Lemma delimited_app p s : delimited s -> delimited (p ++ s).
Proof.
  intros [q ->]. exists (p ++ q)%string. now rewrite string_app_assoc.
Qed.

(** Replacing every [". . "] of a string that ends with [". . "] leaves a
    string that ends with [" . "]. *)
Lemma replace_delimited n : forall y,
  (String.length y <= n)%nat ->
  delimited (PyStr.replace (y ++ ". . ") ". . " " . ").
Proof.
  unfold PyStr.replace.
  induction n as [|n IH]; intros y Hlen.
  - destruct y; [|simpl in Hlen; lia]. exists EmptyString. reflexivity.
  - destruct y as [|c y]; [exists EmptyString; reflexivity|].
    simpl in Hlen.
    change (String c y ++ ". . ")%string with (String c (y ++ ". . ")).
    cbn [PyStr.replace_go].
    destruct (PyStr.startswith ". . " (String c (y ++ ". . "))) eqn:E.
    + apply startswith_app in E as [s' Hs'].
      injection Hs' as -> Hs'.
      destruct y as [|c2 y]; [discriminate Hs'|].
      injection Hs' as -> Hs'.
      destruct y as [|c3 y].
      * injection Hs' as <-. exists " ."%string. reflexivity.
      * injection Hs' as -> Hs'.
        destruct y as [|c4 y]; [discriminate Hs'|].
        injection Hs' as -> Hs'. subst s'.
        cbn [String.append PyStr.replace_go String.length Nat.pred].
        change (String " " (String "." (String " " ?r)))
          with (" . " ++ r)%string.
        apply delimited_app, IH. simpl in Hlen. lia.
    + change (String c ?r) with (String c EmptyString ++ r)%string.
      apply delimited_app, IH. lia.
Qed.

Lemma Forall_update_last (P : string -> Prop) f l :
  Forall P l -> P (f (last l "")) -> Forall P (update_last f l).
Proof.
  induction l as [|x l IH]; intros Hall Hlast; [constructor|].
  inversion Hall as [|? ? Hx Hl]; subst.
  destruct l as [|y l].
  - simpl in *. constructor; [assumption|constructor].
  - change (update_last f (x :: y :: l)) with (x :: update_last f (y :: l)).
    constructor; [assumption|]. apply IH; assumption.
Qed.

Lemma step_sentences_delimited st : Forall delimited (step_sentences st).
Proof.
  unfold step_sentences. cbv zeta.
  set (sentences := map (fun x => (x ++ " . ")%string)
                      (PyStr.split (text st) split_pattern)).
  assert (Hall : Forall delimited sentences).
  { apply Forall_forall. intros s Hs. apply in_map_iff in Hs as (x & <- & _).
    now exists x. }
  unfold last_endswith.
  destruct (PyStr.endswith (last sentences "") ". . ") eqn:E; [|assumption].
  apply Forall_update_last; [assumption|].
  apply endswith_elim in E as [y ->].
  apply (replace_delimited (String.length y)). lia.
Qed.

Lemma steps_flat_delimited sts : forall n, Forall delimited (steps_flat n sts).
Proof.
  induction sts as [|st sts IH]; intros n; [constructor|].
  cbn [steps_flat]. constructor.
  - rewrite directions_spec.
    exists ("[ STEP ] " ++ PyStr.of_nat n ++ " "
              ++ PyStr.drop_last (summary st))%string.
    unfold cl_eos_str. rewrite !string_app_assoc. reflexivity.
  - apply Forall_app. split; [apply step_sentences_delimited|apply IH].
Qed.

Lemma all_sentences_delimited t m sts :
  Forall delimited (all_sentences t m sts).
Proof.
  rewrite all_sentences_flat. constructor; [|constructor].
  - exists ("[ TITLE ] " ++ t)%string. unfold cl_eos_str.
    rewrite string_app_assoc. reflexivity.
  - exists ("[ METHOD ] " ++ m)%string. unfold cl_eos_str.
    rewrite string_app_assoc. reflexivity.
  - apply steps_flat_delimited.
Qed.

(** X3. Every sentence of a constructed dataset ends with the delimiter
    [" . "], also the last fragment of a step body after the repair of
    line 63. *)
Theorem records_delimited
  (count_tokens : backend -> string -> Z) (all_dataset : Z -> result doc)
  (is_train : bool) (config_k : Z) (name : string) (sd : Z) (self : dataset)
  (i : Z) (r : sentence_info) :
  init count_tokens all_dataset is_train config_k name sd = Ok self ->
  0 <= i -> py_getitem (processed_data self) i = Ok r ->
  PyStr.endswith (sentence r) cl_eos_str = true.
Proof.
  intros Hinit Hi Hr.
  destruct (record_in_rendered_unit _ _ _ _ _ _ _ _ _ Hinit Hi Hr)
    as (t & m & st & sts & j & Hj & _).
  apply nth_error_In, filter_In in Hj as [Hin _].
  pose proof (all_sentences_delimited t m (st :: sts)) as Hall.
  rewrite Forall_forall in Hall. destruct (Hall _ Hin) as [p ->].
  apply endswith_intro.
Qed.

Lemma records_delimited_witness :
  PyStr.endswith "Fill to the line . " " . " = true.
Proof.
  exact (records_delimited char_tokens tea_corpus false 1 "GPT2" 1
           (tea_dataset 1) 4 (mkInfo "Fill to the line . " 4 0 7)
           (tea_init 1) ltac:(lia) eq_refl).
Defined.

(** ** Neighbouring records *)

Lemma build_head d u us r :
  (3 <= length u)%nat ->
  nth_error (build d (u :: us)) 0 = Some r ->
  doc_id r = d /\ sentence_id r = 0.
Proof.
  intros Hu H. simpl build in H.
  rewrite nth_error_app1 in H by (rewrite unit_of_length; lia).
  apply unit_of_nth in H as (s & _ & ->). simpl. auto.
Qed.

Lemma build_neighbours us : forall d i a b,
  Forall (fun u => (3 <= length u)%nat) us ->
  nth_error (build d us) i = Some a ->
  nth_error (build d us) (S i) = Some b ->
  (doc_id b = doc_id a /\ sentence_id b = sentence_id a + 1) \/
  (doc_id b = doc_id a + 1 /\ sentence_id b = 0 /\
   sentence_id a = total_doc_sentences a - 1).
Proof.
  induction us as [|u us IH]; intros d i a b Hall Ha Hb.
  - destruct i; discriminate.
  - inversion Hall as [|? ? Hu Hus]; subst.
    pose proof (unit_of_length d u) as Hlen. simpl build in Ha, Hb.
    destruct (Nat.lt_ge_cases (S i) (length u)) as [Hlt|Hge].
    + rewrite nth_error_app1 in Ha, Hb by lia.
      apply unit_of_nth in Ha as (s & _ & ->).
      apply unit_of_nth in Hb as (s' & _ & ->).
      left. simpl. split; lia.
    + destruct (Nat.eq_dec (S i) (length u)) as [Heq|Hne].
      * rewrite nth_error_app1 in Ha by lia.
        rewrite nth_error_app2 in Hb by lia.
        apply unit_of_nth in Ha as (s & _ & ->).
        replace (S i - length (unit_of d u))%nat with 0%nat in Hb by lia.
        destruct us as [|u' us]; [discriminate|].
        inversion Hus; subst.
        apply build_head in Hb as [Hd Hs]; [|assumption].
        right. simpl. unfold py_len. repeat split; lia.
      * rewrite nth_error_app2 in Ha, Hb by lia.
        replace (S i - length (unit_of d u))%nat
          with (S (i - length (unit_of d u))) in Hb by lia.
        eapply IH; eassumption.
Qed.

(** X4. In a constructed dataset the first record has [doc_id] 0 and
    [sentence_id] 0, and two neighbouring records either belong to one
    unit, with consecutive [sentence_id]s, or the first closes its unit
    and the second opens the unit with the next [doc_id]: unit numbers
    grow by one along the sequence and leave no gap. *)
Theorem neighbours
  (count_tokens : backend -> string -> Z) (all_dataset : Z -> result doc)
  (is_train : bool) (config_k : Z) (name : string) (sd : Z) (self : dataset) :
  init count_tokens all_dataset is_train config_k name sd = Ok self ->
  (exists r0, py_getitem (processed_data self) 0 = Ok r0 /\
              doc_id r0 = 0 /\ sentence_id r0 = 0) /\
  forall i a b,
    0 <= i ->
    py_getitem (processed_data self) i = Ok a ->
    py_getitem (processed_data self) (i + 1) = Ok b ->
    (doc_id b = doc_id a /\ sentence_id b = sentence_id a + 1) \/
    (doc_id b = doc_id a + 1 /\ sentence_id b = 0 /\
     sentence_id a = total_doc_sentences a - 1).
Proof.
  intros Hinit.
  destruct (init_flattened _ _ _ _ _ _ _ Hinit) as (us & Hdata & Hall).
  split.
  - assert (H0 : exists r0, py_getitem (processed_data self) 0 = Ok r0).
    { revert Hinit. unfold init. destruct (slice is_train) as [x z].
      destruct (set_tokenizer name) as [b|]; simpl; [|discriminate].
      unfold process_data.
      destruct (process_range _ _ _ _ _) as [st|]; simpl; [|discriminate].
      destruct (py_getitem (fst st) 0) as [r0|] eqn:E0; simpl; [|discriminate].
      destruct (py_getitem (fst st) 10); simpl; [|discriminate].
      intros [= <-]. simpl. now exists r0. }
    destruct H0 as [r0 H0]. exists r0. split; [assumption|].
    rewrite Hdata in H0. apply py_getitem_nth in H0; [|lia].
    destruct us as [|u us]; [discriminate|].
    inversion Hall; subst. eapply build_head; eassumption.
  - intros i a b Hi Ha Hb. rewrite Hdata in Ha, Hb.
    apply py_getitem_nth in Ha; [|lia]. apply py_getitem_nth in Hb; [|lia].
    replace (Z.to_nat (i + 1)) with (S (Z.to_nat i)) in Hb by lia.
    eapply build_neighbours; eassumption.
Qed.

Lemma neighbours_witness :
  (doc_id (mkInfo "[ TITLE ] Make Tea . " 0 1 3) =
   doc_id (mkInfo "Wait . " 6 0 7) /\
   sentence_id (mkInfo "[ TITLE ] Make Tea . " 0 1 3) =
   sentence_id (mkInfo "Wait . " 6 0 7) + 1) \/
  (doc_id (mkInfo "[ TITLE ] Make Tea . " 0 1 3) =
   doc_id (mkInfo "Wait . " 6 0 7) + 1 /\
   sentence_id (mkInfo "[ TITLE ] Make Tea . " 0 1 3) = 0 /\
   sentence_id (mkInfo "Wait . " 6 0 7) =
   total_doc_sentences (mkInfo "Wait . " 6 0 7) - 1).
Proof.
  exact (proj2 (neighbours char_tokens tea_corpus false 1 "GPT2" 1
                  (tea_dataset 1) (tea_init 1))
           6 (mkInfo "Wait . " 6 0 7) (mkInfo "[ TITLE ] Make Tea . " 0 1 3)
           ltac:(lia) eq_refl eq_refl).
Defined.

(** ** Grouping the steps by method *)

Lemma first_occurrences_In l x : In x (first_occurrences l) <-> In x l.
Proof.
  induction l as [|a l IH]; [reflexivity|].
  cbn [first_occurrences]. split.
  - intros [->|H]; [now left|].
    apply filter_In in H as [H _]. right. now apply IH.
  - intros [->|H]; [now left|].
    destruct (String.eqb_spec x a) as [->|Hne]; [now left|].
    right. apply filter_In. split; [now apply IH|].
    destruct (String.eqb_spec x a); [contradiction|reflexivity].
Qed.

Lemma first_occurrences_NoDup l : NoDup (first_occurrences l).
Proof.
  induction l as [|a l IH]; cbn [first_occurrences]; constructor.
  - intros H. apply filter_In in H as [_ H].
    now rewrite String.eqb_refl in H.
  - now apply NoDup_filter.
Qed.

Lemma first_occurrences_snoc l x :
  first_occurrences (l ++ [x]) =
  if existsb (String.eqb x) l then first_occurrences l
  else first_occurrences l ++ [x].
Proof.
  induction l as [|a l IH]; [reflexivity|].
  cbn [app first_occurrences existsb]. rewrite IH.
  destruct (String.eqb_spec x a) as [->|Hne]; cbn [orb].
  - destruct (existsb (String.eqb a) l); [reflexivity|].
    rewrite filter_app. cbn [filter]. rewrite String.eqb_refl. cbn [negb].
    now rewrite app_nil_r.
  - destruct (existsb (String.eqb x) l); [reflexivity|].
    rewrite filter_app. cbn [filter].
    destruct (String.eqb_spec x a); [contradiction|reflexivity].
Qed.

Lemma steps_of_snoc name l v :
  steps_of name (l ++ [v]) =
  steps_of name l ++ (if String.eqb name (section v) then [v] else []).
Proof.
  unfold steps_of. rewrite filter_app. cbn [filter].
  now destruct (String.eqb name (section v)).
Qed.

Lemma steps_of_absent name l :
  existsb (String.eqb name) (map section l) = false -> steps_of name l = [].
Proof.
  induction l as [|a l IH]; [reflexivity|].
  cbn [map existsb steps_of filter]. intros H.
  apply orb_false_elim in H as [Ha Hl]. rewrite Ha. now apply IH.
Qed.

Lemma method2steps_append_groups names l v :
  NoDup names ->
  method2steps_append (map (fun n => (n, steps_of n l)) names) v =
  map (fun n => (n, steps_of n (l ++ [v]))) names
  ++ (if existsb (String.eqb (section v)) names then []
      else [(section v, [v])]).
Proof.
  induction names as [|n names IH]; intros Hnd; [reflexivity|].
  inversion Hnd as [|? ? Hn Hnames]; subst.
  cbn [map method2steps_append existsb app].
  rewrite (steps_of_snoc n l v).
  destruct (String.eqb_spec n (section v)) as [He|Hne].
  - subst n. rewrite String.eqb_refl. cbn [orb]. rewrite app_nil_r.
    f_equal. apply map_ext_in. intros n' Hn'. rewrite steps_of_snoc.
    destruct (String.eqb_spec n' (section v)) as [->|_]; [contradiction|].
    now rewrite app_nil_r.
  - rewrite app_nil_r.
    destruct (String.eqb_spec (section v) n) as [E|_]; [congruence|].
    cbn [orb]. rewrite IH by assumption. reflexivity.
Qed.

Lemma existsb_first_occurrences x l :
  existsb (String.eqb x) (first_occurrences l) = existsb (String.eqb x) l.
Proof.
  apply eq_true_iff_eq. rewrite !existsb_exists. split.
  - intros (y & Hy & E). exists y. split; [|assumption].
    now apply first_occurrences_In.
  - intros (y & Hy & E). exists y. split; [|assumption].
    now apply first_occurrences_In.
Qed.

Lemma method2steps_fold kvs : forall l,
  fold_left (fun m (kv : string * step) => method2steps_append m (snd kv)) kvs
    (map (fun n => (n, steps_of n l)) (first_occurrences (map section l))) =
  map (fun n => (n, steps_of n (l ++ map snd kvs)))
    (first_occurrences (map section (l ++ map snd kvs))).
Proof.
  induction kvs as [|[key v] kvs IH]; intros l.
  - simpl. now rewrite app_nil_r.
  - cbn [fold_left map snd].
    rewrite method2steps_append_groups by apply first_occurrences_NoDup.
    rewrite existsb_first_occurrences.
    replace (l ++ v :: map snd kvs) with ((l ++ [v]) ++ map snd kvs)
      by (rewrite <- app_assoc; reflexivity).
    rewrite <- IH. f_equal.
    rewrite map_app. cbn [map]. rewrite first_occurrences_snoc.
    destruct (existsb (String.eqb (section v)) (map section l)) eqn:E.
    + now rewrite app_nil_r.
    + rewrite map_app. cbn [map]. rewrite steps_of_snoc, String.eqb_refl.
      now rewrite (steps_of_absent _ _ E).
Qed.

(** X5. Grouping by method: [method2steps] lists the distinct section names
    of a document in the order of their first step, each with all the
    steps of that section in their original order. *)
Theorem method2steps_groups (d : doc) :
  method2steps d =
  map (fun name => (name, steps_of name (map snd (steps d))))
    (first_occurrences (map section (map snd (steps d)))).
Proof.
  unfold method2steps. apply (method2steps_fold (steps d) []).
Qed.

(** ** How a unit opens *)

Lemma method2steps_section d m st sts :
  In (m, st :: sts) (method2steps d) -> section st = m.
Proof.
  unfold method2steps. intros H.
  pose proof (method2steps_fold (steps d) []) as Hfold.
  cbn [map first_occurrences app] in Hfold. rewrite Hfold in H.
  apply in_map_iff in H as (n & E & _).
  injection E as -> E.
  assert (Hin : In st (steps_of m (map snd (steps d))))
    by (rewrite E; now left).
  apply filter_In in Hin as [_ Hs].
  apply String.eqb_eq in Hs. congruence.
Qed.

(** X2. Every unit of a constructed dataset stems from one method group of
    one document of the slice and opens with that document's title
    sentence, that group's method sentence and the directions sentence of
    the group's first step: around any record, the records at unit
    positions 0, 1 and 2 hold ["[ TITLE ] " + title + " . "],
    ["[ METHOD ] " + method + " . "] and
    ["[ STEP ] 0 " + summary[:-1] + " . "] for the title of that document,
    the name of that group and the summary of its first step. *)
Theorem unit_heads
  (count_tokens : backend -> string -> Z) (all_dataset : Z -> result doc)
  (is_train : bool) (config_k : Z) (name : string) (sd : Z) (self : dataset)
  (i : Z) (r : sentence_info) :
  init count_tokens all_dataset is_train config_k name sd = Ok self ->
  0 <= i -> py_getitem (processed_data self) i = Ok r ->
  exists j d m st sts r0 r1 r2,
    fst (slice is_train) <= j < snd (slice is_train) /\
    all_dataset j = Ok d /\
    In (m, st :: sts) (method2steps d) /\ section st = m /\
    let start := i - sentence_id r in
    py_getitem (processed_data self) start = Ok r0 /\
    py_getitem (processed_data self) (start + 1) = Ok r1 /\
    py_getitem (processed_data self) (start + 2) = Ok r2 /\
    doc_id r0 = doc_id r /\ doc_id r1 = doc_id r /\ doc_id r2 = doc_id r /\
    sentence_id r0 = 0 /\ sentence_id r1 = 1 /\ sentence_id r2 = 2 /\
    sentence r0 = ("[ TITLE ] " ++ title d ++ " . ")%string /\
    sentence r1 = ("[ METHOD ] " ++ m ++ " . ")%string /\
    sentence r2 =
      ("[ STEP ] 0 " ++ PyStr.drop_last (summary st) ++ " . ")%string.
Proof.
  intros Hinit Hi Hr.
  destruct (init_grouped _ _ _ _ _ _ _ Hinit) as (us & Hdata & Hall).
  rewrite Hdata in *. apply py_getitem_nth in Hr; [|assumption].
  destruct (build_unit_at _ _ _ _ Hr) as (u & start & Hin & Hstart & Hunit).
  rewrite Forall_forall in Hall.
  destruct (Hall u Hin) as (d & m & st & sts & (j & Hj & Hd) & Hg & ->).
  rewrite all_sentences_flat in Hunit. cbn [steps_flat filter] in Hunit.
  rewrite kept_title, kept_method, kept_directions in Hunit.
  destruct (Hunit 0%nat _ eq_refl) as (r0 & H0 & Hs0 & Hd0 & Hi0).
  destruct (Hunit 1%nat _ eq_refl) as (r1 & H1 & Hs1 & Hd1 & Hi1).
  destruct (Hunit 2%nat _ eq_refl) as (r2 & H2 & Hs2 & Hd2 & Hi2).
  exists j, d, m, st, sts, r0, r1, r2. cbv zeta.
  split; [assumption|]. split; [assumption|]. split; [assumption|].
  split; [eapply method2steps_section; eassumption|].
  assert (E : i - sentence_id r = Z.of_nat start) by lia. rewrite E.
  split; [apply py_getitem_nth; [lia|];
          rewrite <- H0; f_equal; lia|].
  split; [apply py_getitem_nth; [lia|];
          rewrite <- H1; f_equal; lia|].
  split; [apply py_getitem_nth; [lia|];
          rewrite <- H2; f_equal; lia|].
  rewrite Hs0, Hs1, Hs2, directions_spec.
  repeat (split; [solve [assumption | reflexivity]|]). reflexivity.
Qed.

Lemma unit_heads_witness :
  exists j d m st sts,
    40000 <= j < 40100 /\ tea_corpus j = Ok d /\
    In (m, st :: sts) (method2steps d) /\ section st = m /\
    "[ TITLE ] Make Tea . " = ("[ TITLE ] " ++ title d ++ " . ")%string /\
    "[ METHOD ] Steep . " = ("[ METHOD ] " ++ m ++ " . ")%string /\
    "[ STEP ] 0 Add the tea . " =
      ("[ STEP ] 0 " ++ PyStr.drop_last (summary st) ++ " . ")%string.
Proof.
  destruct (unit_heads char_tokens tea_corpus false 1 "GPT2" 1
              (tea_dataset 1) 8 (mkInfo "[ METHOD ] Steep . " 1 1 3)
              (tea_init 1) ltac:(lia) eq_refl)
    as (j & d & m & st & sts & r0 & r1 & r2 & Hj & Hd & Hg & Hsec
        & H0 & H1 & H2 & _ & _ & _ & _ & _ & _ & Hs0 & Hs1 & Hs2).
  exists j, d, m, st, sts.
  vm_compute in H0, H1, H2.
  injection H0 as <-. injection H1 as <-. injection H2 as <-.
  cbn [sentence] in Hs0, Hs1, Hs2.
  repeat (split; [assumption|]). assumption.
Defined.

(** * Construction: what it needs and how it fails *)

Lemma process_range_raises count_tokens all_dataset b a e j n : forall s st,
  (s <= j < s + n)%nat ->
  (forall i, (s <= i < j)%nat -> exists d, all_dataset (a + Z.of_nat i) = Ok d) ->
  all_dataset (a + Z.of_nat j) = Raise e ->
  process_range count_tokens all_dataset b
    (map (fun i => a + Z.of_nat i) (seq s n)) st = Raise e.
Proof.
  induction n as [|n IH]; intros s st Hj Hpre He; [lia|].
  cbn [seq map process_range].
  destruct (Nat.eq_dec s j) as [->|Hne].
  - rewrite He. reflexivity.
  - destruct (Hpre s ltac:(lia)) as [d ->]. cbn [bind].
    apply IH; [lia| |assumption].
    intros i Hi. apply Hpre. lia.
Qed.

Lemma process_data_eleven count_tokens all_dataset b a z data :
  process_data count_tokens all_dataset b a z = Ok data -> 11 <= py_len data.
Proof.
  unfold process_data.
  destruct (process_range _ _ _ _ _) as [st|]; cbn [bind]; [|discriminate].
  destruct (py_getitem (fst st) 0); cbn [bind]; [|discriminate].
  destruct (py_getitem (fst st) 10) as [r|] eqn:E10; cbn [bind];
    [|discriminate].
  intros [= <-].
  assert (H : 0 <= 10) by lia.
  pose proof (py_getitem_Ok_range (fst st) 10 r H E10). lia.
Qed.

(** X6. A dataset that construction returns has a recognised tokenizer
    name, stores the flag, window size and seed it was given, and holds at
    least eleven records (the second [print] of [_process_data] reads
    [processed_data[10]]), so its reported length is at least ten. *)
Theorem init_returns
  (count_tokens : backend -> string -> Z) (all_dataset : Z -> result doc)
  (is_train : bool) (config_k : Z) (name : string) (sd : Z) (self : dataset) :
  init count_tokens all_dataset is_train config_k name sd = Ok self ->
  (name = "GPT2" /\ tokenizer self = GPT2 \/
   name = "BERT" /\ tokenizer self = BERT) /\
  train self = is_train /\ k self = config_k /\ seed self = sd /\
  11 <= py_len (processed_data self) /\ 10 <= len self.
Proof.
  unfold init, len. destruct (slice is_train) as [a z].
  unfold set_tokenizer.
  destruct (String.eqb_spec name "GPT2") as [->|Hg];
    [|destruct (String.eqb_spec name "BERT") as [->|Hb]];
    cbn [bind]; try discriminate;
    (destruct (process_data count_tokens all_dataset _ a z) as [data|] eqn:E;
     cbn [bind]; [|discriminate]);
    intros [= <-]; cbn [tokenizer train k seed processed_data];
    pose proof (process_data_eleven _ _ _ _ _ _ E);
    repeat split; auto; lia.
Qed.

Lemma init_returns_witness :
  ("GPT2" = "GPT2" /\ tokenizer (tea_dataset 3) = GPT2 \/
   "GPT2" = "BERT" /\ tokenizer (tea_dataset 3) = BERT) /\
  train (tea_dataset 3) = false /\ k (tea_dataset 3) = 3 /\
  seed (tea_dataset 3) = 1 /\
  11 <= py_len (processed_data (tea_dataset 3)) /\ 10 <= len (tea_dataset 3).
Proof.
  exact (init_returns char_tokens tea_corpus false 3 "GPT2" 1 (tea_dataset 3)
           (tea_init 3)).
Defined.

(** X7. A tokenizer name other than ["GPT2"] and ["BERT"] makes
    construction raise [ValueError], whatever the corpus holds: the
    tokenizer is selected before any document is read. *)
Theorem init_unknown_tokenizer
  (count_tokens : backend -> string -> Z) (all_dataset : Z -> result doc)
  (is_train : bool) (config_k : Z) (name : string) (sd : Z) :
  name <> "GPT2" -> name <> "BERT" ->
  init count_tokens all_dataset is_train config_k name sd = Raise ValueError.
Proof.
  intros Hg Hb. unfold init, set_tokenizer.
  destruct (slice is_train) as [a z].
  destruct (String.eqb_spec name "GPT2"); [contradiction|].
  destruct (String.eqb_spec name "BERT"); [contradiction|].
  reflexivity.
Qed.

Lemma init_unknown_tokenizer_witness :
  init char_tokens tea_corpus true 1 "gpt2" 1 = Raise ValueError.
Proof.
  apply init_unknown_tokenizer; discriminate.
Defined.

(** X8. When the slice flattens to fewer than eleven records, construction
    raises [IndexError] (at [print(self.processed_data[0])] or
    [print(self.processed_data[10])]) although flattening went through. *)
Theorem init_needs_eleven_records
  (count_tokens : backend -> string -> Z) (all_dataset : Z -> result doc)
  (is_train : bool) (config_k : Z) (name : string) (sd : Z)
  (b : backend) (st : list sentence_info * Z) :
  set_tokenizer name = Ok b ->
  process_range count_tokens all_dataset b
    (py_range (fst (slice is_train)) (snd (slice is_train))) ([], 0) = Ok st ->
  py_len (fst st) < 11 ->
  init count_tokens all_dataset is_train config_k name sd = Raise IndexError.
Proof.
  intros Hb Hst Hlen. unfold init.
  destruct (slice is_train) as [a z]. cbn [fst snd] in Hst.
  rewrite Hb. cbn [bind]. unfold process_data. rewrite Hst. cbn [bind].
  destruct (py_getitem (fst st) 0) as [r0|e0] eqn:E0; cbn [bind].
  - destruct (py_getitem (fst st) 10) as [r10|e10] eqn:E10; cbn [bind].
    + assert (H : 0 <= 10) by lia.
      pose proof (py_getitem_Ok_range (fst st) 10 r10 H E10). lia.
    + revert E10. unfold py_getitem.
      destruct ((0 <=? _) && _); [|now intros [= <-]].
      destruct (nth_error _ _); [discriminate|now intros [= <-]].
  - revert E0. unfold py_getitem.
    destruct ((0 <=? _) && _); [|now intros [= <-]].
    destruct (nth_error _ _); [discriminate|now intros [= <-]].
Qed.

Lemma init_needs_eleven_records_witness :
  init char_tokens bare_corpus false 1 "BERT" 1 = Raise IndexError.
Proof.
  apply (init_needs_eleven_records char_tokens bare_corpus false 1 "BERT" 1
           BERT ([], 0)).
  - reflexivity.
  - vm_compute. reflexivity.
  - vm_compute. reflexivity.
Defined.

(** X9. When the corpus has no document for some index of the slice, and
    has one for every earlier index of the slice, construction raises the
    corpus's own exception for that index. *)
Theorem init_missing_document
  (count_tokens : backend -> string -> Z) (all_dataset : Z -> result doc)
  (is_train : bool) (config_k : Z) (name : string) (sd : Z)
  (b : backend) (j : Z) (e : exn) :
  set_tokenizer name = Ok b ->
  fst (slice is_train) <= j < snd (slice is_train) ->
  (forall i, fst (slice is_train) <= i < j -> exists d, all_dataset i = Ok d) ->
  all_dataset j = Raise e ->
  init count_tokens all_dataset is_train config_k name sd = Raise e.
Proof.
  intros Hb Hj Hpre He. unfold init.
  destruct (slice is_train) as [a z]. cbn [fst snd] in *.
  rewrite Hb. cbn [bind]. unfold process_data, py_range.
  rewrite (process_range_raises count_tokens all_dataset b a e
             (Z.to_nat (j - a)) (Z.to_nat (z - a)) 0%nat ([], 0)).
  - reflexivity.
  - lia.
  - intros i Hi. apply Hpre. lia.
  - replace (a + Z.of_nat (Z.to_nat (j - a))) with j by lia. assumption.
Qed.

Lemma init_missing_document_witness :
  init char_tokens short_corpus false 1 "GPT2" 1 = Raise KeyError.
Proof.
  apply (init_missing_document char_tokens short_corpus false 1 "GPT2" 1
           GPT2 40050 KeyError).
  - reflexivity.
  - cbn [slice fst snd]. lia.
  - cbn [slice fst snd]. intros i Hi. exists tea. unfold short_corpus.
    destruct (Z.ltb_spec i 40050); [reflexivity|lia].
  - reflexivity.
Defined.

(** * Further properties of the sampling strategies *)

(** ** Pairwise order *)

(** X10. On a dataset as construction leaves it, a pairwise sample never
    returns: for every index into the records the lookups and the
    assertion pass and the read of [self.one_hot_labels], which no
    constructor assigns, raises [AttributeError]. *)
Theorem discourse_needs_flag
  (R : generator) (count_tokens : backend -> string -> Z)
  (all_dataset : Z -> result doc) (is_train : bool) (config_k : Z)
  (name : string) (sd : Z) (self : dataset) (index : Z) (g : G R) :
  init count_tokens all_dataset is_train config_k name sd = Ok self ->
  1 <= config_k ->
  0 <= index < py_len (processed_data self) ->
  fst (discourse_getitem R self index g) = Raise AttributeError.
Proof.
  intros Hinit Hk Hindex.
  pose proof (init_flattened _ _ _ _ _ _ _ Hinit) as Hflat.
  pose proof (init_k _ _ _ _ _ _ _ Hinit) as Hkself.
  pose proof (init_no_flag _ _ _ _ _ _ _ Hinit) as Hflag.
  destruct (py_getitem_in_range _ _ Hindex) as [u Hu].
  assert (Hk0 : 0 <= config_k) by lia.
  destruct (window_in_unit (processed_data self) config_k index u Hflat
              Hk0 (proj1 Hindex) Hu)
    as (_ & _ & a & b & Ha & Hb & Hda & Hdb & _).
  assert (Hd : doc_id a = doc_id b) by congruence.
  rewrite <- Hkself in Ha, Hb.
  rewrite (discourse_getitem_eval R self index g u a b Hu Ha Hb Hd).
  cbn [fst]. unfold read_flag. rewrite Hflag. reflexivity.
Qed.

Lemma discourse_needs_flag_witness :
  fst (discourse_getitem tape (tea_dataset 2) 6 [1]) = Raise AttributeError.
Proof.
  apply (discourse_needs_flag tape char_tokens tea_corpus false 2 "GPT2" 1
           (tea_dataset 2) 6 [1] (tea_init 2)).
  - lia.
  - apply tea_index_valid. lia.
Defined.

(** X11. The two sentences of a pairwise sample lie in the unit of the
    queried record, [min(k, n - 1)] places apart, [n] being the unit's
    length: exactly [k] apart in a unit of more than [k] sentences, and the
    unit's first and last sentence otherwise. *)
Theorem discourse_window_width
  (R : generator) (count_tokens : backend -> string -> Z)
  (all_dataset : Z -> result doc) (is_train : bool) (config_k : Z)
  (name : string) (sd : Z) (self : dataset) (flag : bool)
  (index : Z) (g : G R) :
  init count_tokens all_dataset is_train config_k name sd = Ok self ->
  1 <= config_k ->
  0 <= index < py_len (processed_data self) ->
  exists u x,
    py_getitem (processed_data self) index = Ok u /\
    fst (discourse_getitem R (set_one_hot_labels self flag) index g) = Ok x /\
    let start := index - sentence_id u in
    let n := total_doc_sentences u in
    start <= d_t x /\ d_tp1 x < start + n /\
    d_tp1 x - d_t x = Z.min config_k (n - 1) /\
    (n <= config_k -> d_t x = start /\ d_tp1 x = start + n - 1).
Proof.
  intros Hinit Hk Hindex.
  pose proof (init_flattened _ _ _ _ _ _ _ Hinit) as Hflat.
  pose proof (init_k _ _ _ _ _ _ _ Hinit) as Hkself.
  destruct (py_getitem_in_range _ _ Hindex) as [u Hu].
  assert (Hk0 : 0 <= config_k) by lia.
  destruct (window_in_unit (processed_data self) config_k index u Hflat
              Hk0 (proj1 Hindex) Hu)
    as (Ht & Htp1 & a & b & Ha & Hb & Hda & Hdb & _).
  destruct (flattened_span _ _ _ Hflat (proj1 Hindex) Hu) as (Hn & Hsid & _).
  assert (Hd : doc_id a = doc_id b) by congruence.
  rewrite <- Hkself in Ha, Hb.
  exists u. eexists. split; [assumption|]. split.
  - rewrite (discourse_getitem_eval R (set_one_hot_labels self flag)
               index g u a b Hu Ha Hb Hd).
    cbn [fst read_flag set_one_hot_labels one_hot_labels bind k].
    reflexivity.
  - cbn [d_t d_tp1]. rewrite Hkself. lia.
Qed.

Lemma discourse_window_width_witness :
  exists x,
    fst (discourse_getitem tape (set_one_hot_labels (tea_dataset 5) false)
           8 [0]) = Ok x /\
    d_t x = 7 /\ d_tp1 x = 9.
Proof.
  destruct (discourse_window_width tape char_tokens tea_corpus false 5
              "GPT2" 1 (tea_dataset 5) false 8 [0] (tea_init 5)
              ltac:(lia) (tea_index_valid 5 8 ltac:(lia)))
    as (u & x & Hu & Hx & _ & _ & _ & Hshort).
  exists x. split; [exact Hx|].
  vm_compute in Hu. injection Hu as <-. cbn in Hshort.
  destruct (Hshort ltac:(lia)) as [H1 H2]. split; assumption.
Defined.

(** ** Windowed context *)

Lemma py_getitem_past_end {A} (l : list A) :
  py_getitem l (py_len l) = Raise IndexError.
Proof.
  unfold py_getitem.
  destruct (Z.ltb_spec (py_len l) 0); [unfold py_len in *; lia|].
  destruct (Z.ltb_spec (py_len l) (py_len l)); [lia|].
  now rewrite andb_false_r.
Qed.

(** X12. With [k = 1] the windowed strategy cannot be asked for the final
    record: at the index of the last record the lookup of [index + 1]
    raises [IndexError].  This is the index [__len__] leaves out. *)
Theorem tpk_last_record_raises (self : dataset) :
  k self = 1 ->
  0 < py_len (processed_data self) ->
  tpk_getitem self (len self) = Raise IndexError.
Proof.
  intros Hk Hlen. unfold tpk_getitem, tpk_window, step_back, len.
  rewrite Hk. cbv beta iota delta [Z.eqb Pos.eqb].
  destruct (py_getitem_in_range (processed_data self)
              (py_len (processed_data self) - 1) ltac:(lia)) as [a ->].
  cbn [bind].
  replace (py_len (processed_data self) - 1 + 1)
    with (py_len (processed_data self)) by lia.
  rewrite py_getitem_past_end. reflexivity.
Qed.

Lemma tpk_last_record_raises_witness :
  tpk_getitem (tea_dataset 1) 999 = Raise IndexError.
Proof.
  apply (tpk_last_record_raises (tea_dataset 1)).
  - reflexivity.
  - reflexivity.
Defined.

(** X13. With [k > 1] the windowed strategy's [y_t] and [y_tpk] are the
    texts of two records of the unit of [index], [min(k, n - 1)] places
    apart, [n] being the unit's length; this holds at every index into the
    records, the last one included. *)
Theorem tpk_window_width
  (count_tokens : backend -> string -> Z) (all_dataset : Z -> result doc)
  (is_train : bool) (config_k : Z) (name : string) (sd : Z)
  (self : dataset) (index : Z) :
  init count_tokens all_dataset is_train config_k name sd = Ok self ->
  1 < config_k ->
  0 <= index < py_len (processed_data self) ->
  exists u r_t r_tpk x,
    py_getitem (processed_data self) index = Ok u /\
    tpk_getitem self index = Ok x /\
    y_t x = sentence r_t /\ y_tpk x = sentence r_tpk /\
    doc_id r_t = doc_id u /\ doc_id r_tpk = doc_id u /\
    sentence_id r_tpk - sentence_id r_t =
      Z.min config_k (total_doc_sentences u - 1) /\
    py_getitem (processed_data self)
      (index - sentence_id u + sentence_id r_t) = Ok r_t /\
    py_getitem (processed_data self)
      (index - sentence_id u + sentence_id r_tpk) = Ok r_tpk.
Proof.
  intros Hinit Hk Hindex.
  pose proof (init_flattened _ _ _ _ _ _ _ Hinit) as Hflat.
  pose proof (init_k _ _ _ _ _ _ _ Hinit) as Hkself.
  destruct (py_getitem_in_range _ _ Hindex) as [u Hu].
  assert (Hk0 : 0 <= config_k) by lia.
  destruct (window_in_unit (processed_data self) config_k index u Hflat
              Hk0 (proj1 Hindex) Hu)
    as (Ht & Htp1 & a & b & Ha & Hb & Hda & Hdb & Hsa & Hsb).
  destruct (flattened_span _ _ _ Hflat (proj1 Hindex) Hu) as (Hn & Hsid & _).
  assert (Hne : k self <> 1) by lia.
  assert (Htot : total_doc_sentences u <> 0) by lia.
  pose proof Ha as Ha'. pose proof Hb as Hb'.
  rewrite <- Hkself in Ha', Hb'.
  pose proof (tpk_window_kn self index u a b Hne Hu Ha' Hb' Htot) as Hw.
  destruct (tpk_getitem_lags self index _ _ _ u Hw (proj1 Hindex) Hu)
    as (x & Hx & Hyt & Hytpk & _).
  exists u, a, b, x.
  split; [assumption|]. split; [assumption|]. split; [assumption|].
  split; [assumption|]. split; [assumption|]. split; [assumption|].
  split; [lia|]. split.
  - rewrite Hsa. rewrite <- Ha. f_equal. lia.
  - rewrite Hsb. rewrite <- Hb. f_equal. lia.
Qed.

Lemma tpk_window_width_witness :
  exists x, tpk_getitem (tea_dataset 3) 999 = Ok x /\
            y_t x = "[ TITLE ] Make Tea . " /\
            y_tpk x = "[ STEP ] 0 Add the tea . ".
Proof.
  destruct (tpk_window_width char_tokens tea_corpus false 3 "GPT2" 1
              (tea_dataset 3) 999 (tea_init 3) ltac:(lia)
              (tea_index_valid 3 999 ltac:(lia)))
    as (u & r_t & r_tpk & x & _ & Hx & _).
  exists x. split; [exact Hx|].
  vm_compute in Hx. injection Hx as <-. split; reflexivity.
Defined.

Lemma shares_unit_iff data index lag cur :
  flattened data -> 0 <= index -> 1 <= lag ->
  py_getitem data index = Ok cur ->
  (shares_unit data index lag cur <-> lag <= sentence_id cur).
Proof.
  intros Hflat Hi Hlag Hcur.
  destruct (flattened_span _ _ _ Hflat Hi Hcur)
    as (Hn & Hsid & Hstart & Hend & _ & Hunit & Honly).
  split.
  - intros (Hpos & prev & Hprev & Hd).
    specialize (Honly _ _ Hpos Hprev Hd). lia.
  - intros Hle. split; [lia|].
    destruct (Hunit (sentence_id cur - lag)) as (r & Hr & Hd & _); [lia|].
    exists r. split; [|assumption].
    rewrite <- Hr. f_equal. lia.
Qed.

(** X14. In a constructed dataset the backward-lag text [y_tm{lag}] is
    decided by the position in the unit of the record the lags start from
    (the record at [index'], as in C8): it is the text of the record [lag]
    places earlier in the same unit when that record's [sentence_id] is at
    least [lag], and the text of the record at [index'] itself otherwise;
    it never comes from another unit. *)
Theorem tpk_lags_by_position
  (count_tokens : backend -> string -> Z) (all_dataset : Z -> result doc)
  (is_train : bool) (config_k : Z) (name : string) (sd : Z)
  (self : dataset) (index : Z) :
  init count_tokens all_dataset is_train config_k name sd = Ok self ->
  1 <= config_k ->
  0 <= index < len self ->
  exists index' yt ytpk cur x,
    tpk_window self index = Ok (index', yt, ytpk) /\
    py_getitem (processed_data self) index' = Ok cur /\
    tpk_getitem self index = Ok x /\
    forall lag, lag = 1 \/ lag = 2 \/ lag = 3 ->
      (lag <= sentence_id cur ->
       exists r, py_getitem (processed_data self) (index' - lag) = Ok r /\
                 y_tm lag x = sentence r /\
                 doc_id r = doc_id cur /\
                 sentence_id r = sentence_id cur - lag) /\
      (sentence_id cur < lag -> y_tm lag x = sentence cur).
Proof.
  intros Hinit Hk Hindex. unfold len in Hindex.
  pose proof (init_flattened _ _ _ _ _ _ _ Hinit) as Hflat.
  pose proof (init_k _ _ _ _ _ _ _ Hinit) as Hkself.
  assert (Hgen : exists index' yt ytpk cur,
            tpk_window self index = Ok (index', yt, ytpk) /\
            0 <= index' /\
            py_getitem (processed_data self) index' = Ok cur).
  { destruct (Z.eq_dec config_k 1) as [Hk1|Hk1].
    - destruct (step_back_pair _ _ Hflat Hindex)
        as (a & b & r_t & r_tpk & Ha & Hb & Hi' & _ & Ht & Htpk & _ & _ & Htot).
      assert (Hks : k self = 1) by congruence.
      destruct (tpk_window_k1 self index a b r_t r_tpk Hks Ha Hb Ht Htpk Htot)
        as [_ Hw].
      eauto 10.
    - assert (Hin : 0 <= index < py_len (processed_data self)) by lia.
      destruct (py_getitem_in_range _ _ Hin) as [u Hu].
      assert (Hk0 : 0 <= config_k) by lia.
      destruct (window_in_unit (processed_data self) config_k index u Hflat
                  Hk0 (proj1 Hindex) Hu)
        as (_ & _ & a & b & Ha & Hb & _).
      destruct (flattened_span _ _ _ Hflat (proj1 Hindex) Hu) as (Hn & _).
      rewrite <- Hkself in Ha, Hb.
      assert (Hne : k self <> 1) by congruence.
      assert (Htot : total_doc_sentences u <> 0) by lia.
      pose proof (tpk_window_kn self index u a b Hne Hu Ha Hb Htot) as Hw.
      exists index, (sentence a), (sentence b), u.
      split; [assumption|]. split; [lia|assumption]. }
  destruct Hgen as (index' & yt & ytpk & cur & Hw & Hi' & Hcur).
  destruct (tpk_getitem_lags self index _ _ _ cur Hw Hi' Hcur)
    as (x & Hx & _ & _ & Hlags).
  exists index', yt, ytpk, cur, x.
  split; [assumption|]. split; [assumption|]. split; [assumption|].
  intros lag Hlag.
  assert (Hl1 : 1 <= lag) by lia.
  pose proof (shares_unit_iff _ _ lag _ Hflat Hi' Hl1 Hcur) as Hiff.
  destruct (Hlags lag Hlag) as (pos & r & Hr & Hy & Hpos & Hfall).
  destruct (flattened_span _ _ _ Hflat Hi' Hcur)
    as (_ & _ & _ & _ & _ & Hunit & _).
  split.
  - intros Hle.
    assert (Hsh : shares_unit (processed_data self) index' lag cur)
      by (apply Hiff; exact Hle).
    assert (Epos : pos = index' - lag) by (apply Hpos; exact Hsh).
    subst pos.
    exists r. split; [assumption|]. split; [assumption|].
    destruct (Hunit (sentence_id cur - lag)) as (r' & Hr' & Hd & Hs & _);
      [destruct (flattened_span _ _ _ Hflat Hi' Hcur) as (_ & Hb & _); lia|].
    replace (index' - sentence_id cur + (sentence_id cur - lag))
      with (index' - lag) in Hr' by lia.
    rewrite (py_getitem_fun _ _ _ _ Hr Hr'). auto.
  - intros Hlt.
    assert (Hn : ~ shares_unit (processed_data self) index' lag cur)
      by (rewrite Hiff; lia).
    rewrite (Hfall Hn) in Hr. rewrite Hy.
    now rewrite (py_getitem_fun _ _ _ _ Hr Hcur).
Qed.

Lemma tpk_lags_by_position_witness :
  exists x, tpk_getitem (tea_dataset 1) 7 = Ok x /\
            y_tm 1 x = "[ TITLE ] Make Tea . " /\
            y_tm 2 x = "[ TITLE ] Make Tea . " /\
            y_tm 3 x = "[ TITLE ] Make Tea . ".
Proof.
  destruct (tpk_lags_by_position char_tokens tea_corpus false 1 "GPT2" 1
              (tea_dataset 1) 7 (tea_init 1) ltac:(lia)
              (tea_len_valid 1 7 ltac:(lia)))
    as (index' & yt & ytpk & cur & x & _ & _ & Hx & _).
  exists x. split; [exact Hx|].
  vm_compute in Hx. injection Hx as <-. repeat split; reflexivity.
Defined.

(** X15. With [k = 1], asking for the last record of a unit gives the
    sample of the record before it: the step back of line 295 makes the
    two queries read the same records, so the closing pair of every unit
    but the final one is sampled from two indices. *)
Theorem tpk_boundary_repeats
  (count_tokens : backend -> string -> Z) (all_dataset : Z -> result doc)
  (is_train : bool) (name : string) (sd : Z) (self : dataset)
  (index : Z) (a : sentence_info) :
  init count_tokens all_dataset is_train 1 name sd = Ok self ->
  0 <= index < len self ->
  py_getitem (processed_data self) index = Ok a ->
  sentence_id a = total_doc_sentences a - 1 ->
  0 <= index - 1 /\
  tpk_getitem self index = tpk_getitem self (index - 1).
Proof.
  intros Hinit Hindex Ha Hlast. unfold len in Hindex.
  pose proof (init_flattened _ _ _ _ _ _ _ Hinit) as Hflat.
  pose proof (init_k _ _ _ _ _ _ _ Hinit) as Hk.
  destruct (flattened_span _ _ _ Hflat (proj1 Hindex) Ha)
    as (Hn & Hsid & Hstart & Hend & _ & Hunit & Honly).
  assert (Hin : 0 <= index + 1 < py_len (processed_data self)) by lia.
  destruct (py_getitem_in_range _ _ Hin) as [b Hb].
  assert (Hdb : doc_id a <> doc_id b).
  { intros E. assert (Hi1 : 0 <= index + 1) by lia.
    specialize (Honly _ _ Hi1 Hb (eq_sym E)). lia. }
  destruct (Hunit (sentence_id a - 1)) as (c & Hc & Hdc & _); [lia|].
  replace (index - sentence_id a + (sentence_id a - 1)) with (index - 1)
    in Hc by lia.
  split; [lia|].
  assert (Hs1 : step_back (processed_data self) index = Ok (index - 1)).
  { unfold step_back. rewrite Ha, Hb. cbn [bind].
    destruct (Z.eqb_spec (doc_id a) (doc_id b)); [contradiction|].
    reflexivity. }
  assert (Hs2 : step_back (processed_data self) (index - 1) = Ok (index - 1)).
  { unfold step_back. rewrite Hc.
    replace (index - 1 + 1) with index by lia. rewrite Ha. cbn [bind].
    destruct (Z.eqb_spec (doc_id c) (doc_id a)); [|contradiction].
    reflexivity. }
  unfold tpk_getitem, tpk_window. rewrite Hk.
  cbv beta iota delta [Z.eqb Pos.eqb]. rewrite Hs1, Hs2. reflexivity.
Qed.

Lemma tpk_boundary_repeats_witness :
  tpk_getitem (tea_dataset 1) 6 = tpk_getitem (tea_dataset 1) (6 - 1).
Proof.
  exact (proj2 (tpk_boundary_repeats char_tokens tea_corpus false "GPT2" 1
                  (tea_dataset 1) 6 (mkInfo "Wait . " 6 0 7) (tea_init 1)
                  (tea_len_valid 1 6 ltac:(lia)) eq_refl eq_refl)).
Defined.

(** ** Ordered triplet *)

(** X16. The first three indices of every unit give one and the same
    triplet, whatever the generator draws: from a record with
    [sentence_id] 0, 1 or 2 the sample is the unit's title sentence, its
    method sentence and its first directions sentence, with [t1 = 0],
    [t2 = 1] and [T = 2]. *)
Theorem triplet_unit_head
  (R : generator) (count_tokens : backend -> string -> Z)
  (all_dataset : Z -> result doc) (is_train : bool) (config_k : Z)
  (name : string) (sd : Z) (self : dataset) (index : Z) (g : G R)
  (u : sentence_info) :
  sound R ->
  init count_tokens all_dataset is_train config_k name sd = Ok self ->
  0 <= index ->
  py_getitem (processed_data self) index = Ok u ->
  sentence_id u <= 2 ->
  exists r0 r1 r2 g',
    let start := index - sentence_id u in
    py_getitem (processed_data self) start = Ok r0 /\
    py_getitem (processed_data self) (start + 1) = Ok r1 /\
    py_getitem (processed_data self) (start + 2) = Ok r2 /\
    triplet_getitem R self index g =
    (Ok (mkTriplet (sentence r0) (sentence r1) (sentence r2) 0 1 2
           (total_doc_sentences u)), g').
Proof.
  intros HR Hinit Hi Hu Hs.
  pose proof (init_flattened _ _ _ _ _ _ _ Hinit) as Hflat.
  destruct (flattened_span _ _ _ Hflat Hi Hu)
    as (Hn & Hsid & Hstart & Hend & _ & Hunit & _).
  destruct (advance_in_unit _ _ _ Hflat Hi Hu)
    as (rT & HrT & HdT & HtotT & HT & Hi' & Hst & Hadv0 & Hadv1 & Hadv2).
  set (index' := advance (sentence_id u) index) in *.
  assert (HsT : sentence_id rT = 2).
  { destruct (Z.eq_dec (sentence_id u) 0) as [E|E0];
      [specialize (Hadv0 E); lia|].
    destruct (Z.eq_dec (sentence_id u) 1) as [E|E1];
      [specialize (Hadv1 E); lia|].
    assert (E2 : 2 <= sentence_id u) by lia. specialize (Hadv2 E2). lia. }
  assert (Hidx : index' = index - sentence_id u + 2) by lia.
  destruct (Hunit 0) as (r0 & Hr0 & _); [lia|].
  destruct (Hunit 1) as (r1 & Hr1 & _); [lia|].
  destruct (two_draws R (sentence_id rT) g HR HT)
    as (a & nums & b & g1 & g2 & Ea & Enums & Eb & Ha & Hb & Hab).
  exists r0, r1, rT, g2. cbv zeta.
  rewrite Z.add_0_r in Hr0.
  split; [assumption|]. split; [assumption|].
  split; [rewrite <- Hidx; assumption|].
  unfold triplet_getitem, bindM, lift. rewrite Hu. cbv beta iota zeta.
  fold index'. rewrite HrT, Ea, Enums, Eb.
  assert (Hpair : (if b <? a then (b, a) else (a, b)) = (0, 1)).
  { destruct (Z.ltb_spec b a); f_equal; lia. }
  rewrite Hpair, HsT. cbn [Z.ltb Z.compare Pos.compare Pos.compare_cont andb].
  cbn [py_assert bind].
  replace (index' - 2 + 0) with (index - sentence_id u) by lia.
  replace (index' - 2 + 1) with (index - sentence_id u + 1) by lia.
  rewrite Hr0, Hr1. cbn [bind]. rewrite HtotT. reflexivity.
Qed.

Lemma triplet_unit_head_witness :
  exists g',
    triplet_getitem tape (tea_dataset 2) 8 [1; 7] =
    (Ok (mkTriplet "[ TITLE ] Make Tea . " "[ METHOD ] Steep . "
           "[ STEP ] 0 Add the tea . " 0 1 2 3), g').
Proof.
  destruct (triplet_unit_head tape char_tokens tea_corpus false 2 "GPT2" 1
              (tea_dataset 2) 8 [1; 7] (mkInfo "[ METHOD ] Steep . " 1 1 3)
              tape_sound (tea_init 2) ltac:(lia) eq_refl ltac:(simpl; lia))
    as (r0 & r1 & r2 & g' & H0 & H1 & H2 & Hx).
  exists g'. vm_compute in H0, H1, H2.
  injection H0 as <-. injection H1 as <-. injection H2 as <-.
  exact Hx.
Defined.

(** * The flattener only appends *)

Section AppendOnly.

Variable count_tokens : backend -> string -> Z.
Variable all_dataset : Z -> result doc.

Lemma extends_refl st : extends st st.
Proof.
  exists []. rewrite app_nil_r. repeat split; [lia|constructor].
Qed.

Lemma extends_trans st1 st2 st3 :
  extends st1 st2 -> extends st2 st3 -> extends st1 st3.
Proof.
  intros (n1 & E1 & L1 & F1) (n2 & E2 & L2 & F2).
  exists (n1 ++ n2). rewrite E2, E1, app_assoc.
  split; [reflexivity|]. split; [lia|].
  apply Forall_app. split; eapply Forall_impl; try eassumption;
    simpl; intros; lia.
Qed.

Lemma process_method_extends b t st g :
  extends st (process_method count_tokens b t st g).
Proof.
  destruct st as [data c], g as [name sts]. rewrite process_method_eq.
  destruct (under_threshold _ _ _); [|apply extends_refl].
  eexists. cbn [fst snd]. split; [reflexivity|]. split; [lia|].
  apply Forall_forall. intros r Hr.
  apply In_nth_error in Hr as [j Hj].
  apply unit_of_nth in Hj as (s & _ & ->). simpl. lia.
Qed.

Lemma process_doc_extends b st d :
  extends st (process_doc count_tokens b st d).
Proof.
  unfold process_doc. generalize (method2steps d) as gs. intros gs.
  revert st. induction gs as [|g gs IH]; intros st; simpl.
  - apply extends_refl.
  - eapply extends_trans; [apply process_method_extends|apply IH].
Qed.

Lemma process_range_extends b ids : forall st st',
  process_range count_tokens all_dataset b ids st = Ok st' -> extends st st'.
Proof.
  induction ids as [|i ids IH]; intros st st' H; simpl in H.
  - injection H as <-. apply extends_refl.
  - destruct (all_dataset i) as [d|]; simpl in H; [|discriminate].
    eapply extends_trans; [apply process_doc_extends|apply IH, H].
Qed.

End AppendOnly.

(** X17. Flattening only appends: whatever documents are processed from a
    loop state on, the records already there stay where and as they are,
    the unit counter does not go down, and every record added carries a
    [doc_id] from the old counter up to, and not including, the new one. *)
Theorem flatten_appends
  (count_tokens : backend -> string -> Z) (all_dataset : Z -> result doc)
  (b : backend) (ids : list Z) (st st' : list sentence_info * Z) :
  process_range count_tokens all_dataset b ids st = Ok st' ->
  exists new,
    fst st' = fst st ++ new /\ snd st <= snd st' /\
    Forall (fun r => snd st <= doc_id r < snd st') new.
Proof. apply process_range_extends. Qed.

Lemma flatten_appends_witness :
  exists new,
    fst (process_doc char_tokens GPT2 (firstn 10 tea_data, 2) tea) =
    firstn 10 tea_data ++ new /\
    2 <= snd (process_doc char_tokens GPT2 (firstn 10 tea_data, 2) tea).
Proof.
  destruct (flatten_appends char_tokens tea_corpus GPT2 [7]
              (firstn 10 tea_data, 2)
              (process_doc char_tokens GPT2 (firstn 10 tea_data, 2) tea)
              eq_refl) as (new & E & L & _).
  exists new. split; assumption.
Defined.

(** * Splitting a step body *)


Lemma split_go_skip sep x : forall cur s,
  PyStr.split_go sep (String.length x) cur (x ++ s) =
  PyStr.split_go sep O cur s.
Proof.
  induction x as [|c x IH]; intros cur s; [reflexivity|].
  cbn [String.length String.append PyStr.split_go]. apply IH.
Qed.

Lemma split_go_nonempty sep s : forall n cur,
  PyStr.split_go sep n cur s <> [].
Proof.
  induction s as [|c s IH]; intros n cur; cbn [PyStr.split_go].
  - discriminate.
  - destruct n; [|apply IH].
    destruct (PyStr.startswith sep (String c s)); [discriminate|apply IH].
Qed.

Lemma join_cons sep x l :
  l <> [] -> join sep (x :: l) = (x ++ sep ++ join sep l)%string.
Proof. destruct l; [contradiction|reflexivity]. Qed.

Lemma string_length_app (a b : string) :
  String.length (a ++ b) = (String.length a + String.length b)%nat.
Proof. induction a; simpl; congruence. Qed.

Lemma split_go_join sep n : forall s cur,
  sep <> EmptyString ->
  (String.length s <= n)%nat ->
  join sep (PyStr.split_go sep O cur s) = (PyStr.rev cur ++ s)%string.
Proof.
  induction n as [|n IH]; intros s cur Hsep Hlen.
  - destruct s; [|simpl in Hlen; lia].
    simpl. now rewrite string_app_nil_r.
  - destruct s as [|c s]; [simpl; now rewrite string_app_nil_r|].
    simpl in Hlen. cbn [PyStr.split_go].
    destruct (PyStr.startswith sep (String c s)) eqn:E.
    + apply startswith_app in E as [q Hq].
      destruct sep as [|a sep']; [contradiction|].
      injection Hq as -> ->.
      cbn [String.length Nat.pred]. rewrite split_go_skip.
      rewrite join_cons by apply split_go_nonempty.
      rewrite IH; [reflexivity|assumption|].
      rewrite string_length_app in Hlen. lia.
    + rewrite IH; [|assumption|lia].
      unfold PyStr.rev. cbn [PyStr.rev_onto].
      rewrite (rev_onto_acc cur (String c EmptyString)).
      rewrite string_app_assoc. reflexivity.
Qed.

(** X18. Splitting loses nothing but the separators: the fragments of
    [str.split] on a non-empty separator, joined by that separator, give
    the string back, and there is always at least one fragment, so the
    read of [sentences[-1]] at line 62 cannot fail. *)
Theorem split_join (s sep : string) :
  sep <> EmptyString ->
  join sep (PyStr.split s sep) = s /\ PyStr.split s sep <> [].
Proof.
  intros Hsep. unfold PyStr.split. split.
  - apply (split_go_join sep (String.length s)); [assumption|lia].
  - apply split_go_nonempty.
Qed.

Lemma split_join_witness :
  join ".  " (PyStr.split "Use cold water.  Fill to the line." ".  ") =
  "Use cold water.  Fill to the line." /\
  PyStr.split "Use cold water.  Fill to the line." ".  " <> [].
Proof.
  apply split_join. discriminate.
Defined.

(** X19. The body sentences of a step are its fragments, each with the
    delimiter appended, in order and one for one; only the last of them
    can differ from its fragment plus [" . "]. *)
Theorem step_sentences_fragments (st : step) :
  length (step_sentences st) = length (PyStr.split (text st) split_pattern) /\
  forall j x,
    nth_error (PyStr.split (text st) split_pattern) j = Some x ->
    (S j < length (PyStr.split (text st) split_pattern))%nat ->
    nth_error (step_sentences st) j = Some (x ++ " . ")%string.
Proof.
  assert (Hlen : forall f l, length (update_last f l) = length l).
  { intros f l. induction l as [|a [|b l] IH]; simpl in *; congruence. }
  assert (Hnth : forall f l j, (S j < length l)%nat ->
            nth_error (update_last f l) j = nth_error l j).
  { intros f l. induction l as [|a [|b l] IH]; intros j Hj.
    - simpl in Hj. lia.
    - simpl in Hj. lia.
    - change (update_last f (a :: b :: l)) with (a :: update_last f (b :: l)).
      destruct j; [reflexivity|]. simpl nth_error. apply IH.
      simpl in Hj |- *. lia. }
  unfold step_sentences. cbv zeta.
  set (sentences := map (fun x => (x ++ " . ")%string)
                      (PyStr.split (text st) split_pattern)).
  assert (Hs : length sentences = length (PyStr.split (text st) split_pattern))
    by apply length_map.
  split.
  - destruct (last_endswith sentences ". . "); [rewrite Hlen|]; exact Hs.
  - intros j x Hx Hj.
    assert (Hm : nth_error sentences j = Some (x ++ " . ")%string).
    { unfold sentences. rewrite nth_error_map, Hx. reflexivity. }
    destruct (last_endswith sentences ". . "); [|exact Hm].
    rewrite Hnth by (rewrite Hs; exact Hj). exact Hm.
Qed.

Lemma step_sentences_fragments_witness :
  nth_error (step_sentences
               (mkStep "Boil Water" "Fill the kettle."
                  "Use cold water.  Fill to the line.")) 0 =
  Some "Use cold water . ".
Proof.
  apply (proj2 (step_sentences_fragments
                  (mkStep "Boil Water" "Fill the kettle."
                     "Use cold water.  Fill to the line."))
           0%nat "Use cold water").
  - reflexivity.
  - vm_compute. lia.
Defined.
